(** * Stock ledger of the inventory application

    A shallow embedding of [inventory/models.py], [inventory/forms.py],
    [inventory/views.py], [inventory/admin.py] and the management command
    [check_low_stock.py], followed by the properties of the stock ledger
    and of the low-stock alerts.

    Conventions of the embedding.
    - Python integers are [Z] (unbounded, as in Python).
    - A [Decimal] with two decimal places is the integer number of its
      hundredths, so that [unit_price * quantity] is the product in [Z].
    - A database table is a finite map from primary keys to rows; an
      auto-increment key is a key that is fresh for the table.
    - Code that talks to the database runs in the monad [ORM]: a state
      transformer over the database that either returns a value or raises
      a Python exception, keeping the writes made before the raise (what
      Django does outside [transaction.atomic]).  [atomic] restores the
      database when its body raises.
    - [timezone.now()] is a parameter [now] of the operations that read it. *)

From Stdlib Require Import ZArith Lia.
From stdpp Require Import gmap strings list sorting.

Local Open Scope Z_scope.

Abbreviation Decimal := Z (only parsing).

(** ** Rows and model instances *)

Module Category.
Record t := mk { name : string; description : string }.
End Category.

Module Supplier.
Record t := mk { name : string; is_active : bool }.
End Supplier.

Module Product.
(** The columns of a row; an instance in memory is a row with its
    primary key, [obj]. *)
Record t := mk {
  code : string;
  name : string;
  description : string;
  category : nat;
  supplier : nat;
  unit_price : Decimal;
  current_stock : Z;
  minimum_stock : Z;
  maximum_stock : Z;
  is_active : bool
}.

Definition obj : Type := nat * t.

Definition set_current_stock (v : Z) (self : obj) : obj :=
  let p := self.2 in
  (self.1,
   mk (code p) (name p) (description p) (category p) (supplier p)
      (unit_price p) v (minimum_stock p) (maximum_stock p) (is_active p)).

(** [Product.is_low_stock] *)
Definition is_low_stock (self : obj) : bool :=
  bool_decide (current_stock self.2 ≤ minimum_stock self.2).
End Product.

Module StockMovement.
(** The instance held in memory: [pk] is [None] until the first save,
    [product] is the cached related object, and the columns that have
    no default are [None] until they are assigned. *)
Record t := mk {
  pk : option nat;
  product : Product.obj;
  movement_type : string;
  quantity : Z;
  unit_price : option Decimal;
  total_value : option Decimal;
  reference : string;
  notes : string;
  created_by : option nat;
  created_at : option Z;
  previous_stock : option Z;
  new_stock : Z
}.

(** The row stored in the table. *)
Record row := mkrow {
  r_product_id : nat;
  r_movement_type : string;
  r_quantity : Z;
  r_unit_price : option Decimal;
  r_total_value : option Decimal;
  r_reference : string;
  r_notes : string;
  r_created_by : nat;
  r_created_at : Z;
  r_previous_stock : Z;
  r_new_stock : Z
}.

Definition set_pk (k : option nat) (m : t) : t :=
  mk k (product m) (movement_type m) (quantity m) (unit_price m)
     (total_value m) (reference m) (notes m) (created_by m) (created_at m)
     (previous_stock m) (new_stock m).
Definition set_product (p : Product.obj) (m : t) : t :=
  mk (pk m) p (movement_type m) (quantity m) (unit_price m)
     (total_value m) (reference m) (notes m) (created_by m) (created_at m)
     (previous_stock m) (new_stock m).
Definition set_total_value (v : option Decimal) (m : t) : t :=
  mk (pk m) (product m) (movement_type m) (quantity m) (unit_price m)
     v (reference m) (notes m) (created_by m) (created_at m)
     (previous_stock m) (new_stock m).
Definition set_created_by (u : option nat) (m : t) : t :=
  mk (pk m) (product m) (movement_type m) (quantity m) (unit_price m)
     (total_value m) (reference m) (notes m) u (created_at m)
     (previous_stock m) (new_stock m).
Definition set_created_at (c : option Z) (m : t) : t :=
  mk (pk m) (product m) (movement_type m) (quantity m) (unit_price m)
     (total_value m) (reference m) (notes m) (created_by m) c
     (previous_stock m) (new_stock m).
Definition set_previous_stock (s : option Z) (m : t) : t :=
  mk (pk m) (product m) (movement_type m) (quantity m) (unit_price m)
     (total_value m) (reference m) (notes m) (created_by m) (created_at m)
     s (new_stock m).
Definition set_new_stock (s : Z) (m : t) : t :=
  mk (pk m) (product m) (movement_type m) (quantity m) (unit_price m)
     (total_value m) (reference m) (notes m) (created_by m) (created_at m)
     (previous_stock m) s.

Definition row_set_new_stock (s : Z) (r : row) : row :=
  mkrow (r_product_id r) (r_movement_type r) (r_quantity r)
        (r_unit_price r) (r_total_value r) (r_reference r) (r_notes r)
        (r_created_by r) (r_created_at r) (r_previous_stock r) s.

(** The column values of an instance; [None] when a column that is
    [NOT NULL] has no value. *)
Definition to_row (m : t) : option row :=
  match created_by m, created_at m, previous_stock m with
  | Some u, Some c, Some s =>
      Some (mkrow (product m).1 (movement_type m) (quantity m)
                  (unit_price m) (total_value m) (reference m) (notes m)
                  u c s (new_stock m))
  | _, _, _ => None
  end.
End StockMovement.

Module LowStockAlert.
Record t := mk {
  product : nat;
  current_stock : Z;
  minimum_stock : Z;
  is_resolved : bool;
  created_at : Z;
  resolved_at : option Z
}.
End LowStockAlert.

(** ** The database and the monad of the code that uses it *)

Record DB := mkDB {
  categories : gmap nat Category.t;
  suppliers : gmap nat Supplier.t;
  products : gmap nat Product.t;
  movements : gmap nat StockMovement.row;
  alerts : gmap nat LowStockAlert.t
}.

Definition empty_db : DB := mkDB ∅ ∅ ∅ ∅ ∅.

Definition set_categories (f : gmap nat Category.t → gmap nat Category.t) (db : DB) : DB :=
  mkDB (f (categories db)) (suppliers db) (products db) (movements db) (alerts db).
Definition set_suppliers (f : gmap nat Supplier.t → gmap nat Supplier.t) (db : DB) : DB :=
  mkDB (categories db) (f (suppliers db)) (products db) (movements db) (alerts db).
Definition set_products (f : gmap nat Product.t → gmap nat Product.t) (db : DB) : DB :=
  mkDB (categories db) (suppliers db) (f (products db)) (movements db) (alerts db).
Definition set_movements (f : gmap nat StockMovement.row → gmap nat StockMovement.row) (db : DB) : DB :=
  mkDB (categories db) (suppliers db) (products db) (f (movements db)) (alerts db).
Definition set_alerts (f : gmap nat LowStockAlert.t → gmap nat LowStockAlert.t) (db : DB) : DB :=
  mkDB (categories db) (suppliers db) (products db) (movements db) (f (alerts db)).

Inductive exn :=
| ValueError (msg : string)
| ValidationError (msg : string)
| KeyError (key : string)
| MultipleObjectsReturned
| DoesNotExist
| IntegrityError
| Http404.

Definition ORM (A : Type) : Type := DB → (exn + A) * DB.

Global Instance orm_ret : MRet ORM := λ A a db, (inr a, db).
Global Instance orm_bind : MBind ORM := λ A B k c db,
  match c db with
  | (inr a, db') => k a db'
  | (inl e, db') => (inl e, db')
  end.

Definition raise {A} (e : exn) : ORM A := λ db, (inl e, db).
Definition get_db : ORM DB := λ db, (inr db, db).
Definition modify_db (f : DB → DB) : ORM unit := λ db, (inr tt, f db).

(** [try: c except h]: the handler sees the exception and the database
    as the body left it. *)
Definition try_except {A} (c : ORM A) (h : exn → ORM A) : ORM A :=
  λ db, match c db with
        | (inr a, db') => (inr a, db')
        | (inl e, db') => h e db'
        end.

(** [with transaction.atomic(): c]: the writes of a body that raises are
    rolled back and the exception goes on. *)
Definition atomic {A} (c : ORM A) : ORM A :=
  λ db, match c db with
        | (inr a, db') => (inr a, db')
        | (inl e, _) => (inl e, db)
        end.

(** A key that no row of the table has: the next auto-increment key. *)
Definition fresh_pk {A} (table : gmap nat A) : nat := fresh (dom table).

(** ** [models.py] *)

(** [Model.save] of a [Product]: every column of the row with the
    instance's key is written.  The row holds any integer: a write that
    the database refuses because a value is too large for its column is
    not modelled; [fits_columns] says when the values of a movement
    fit. *)
Definition product_save (self : Product.obj) : ORM unit :=
  modify_db (set_products (insert self.1 self.2)).

(** [Product.update_stock]; it returns the instance as the method leaves
    it. *)
Definition update_stock (self : Product.obj) (quantity : Z)
    (movement_type : string) : ORM Product.obj :=
  let current_stock := Product.current_stock self.2 in
  self ← (if decide (movement_type = "IN") then
            mret (Product.set_current_stock (current_stock + quantity) self)
          else if decide (movement_type = "OUT") then
            if bool_decide (current_stock >= quantity) then
              mret (Product.set_current_stock (current_stock - quantity) self)
            else raise (ValueError "Stock insuficiente")
          else mret self);
  product_save self;;
  mret self.

(** Truth value of a [Decimal] field in a condition: [None] and zero are
    false. *)
Definition truthy (d : option Decimal) : bool :=
  match d with
  | Some v => negb (v =? 0)
  | None => false
  end.

(** [super().save()] of a [StockMovement]: with a key whose row exists
    the row is overwritten with the instance's columns; otherwise a row is
    inserted (under a fresh key when the instance has none) and
    [created_at], which is [auto_now_add], is set to [now]. *)
Definition model_save (now : Z) (m : StockMovement.t) : ORM StockMovement.t :=
  db ← get_db;
  let update k :=
    match StockMovement.to_row m with
    | Some r => modify_db (set_movements (insert k r));; mret m
    | None => raise IntegrityError
    end in
  let insert_at k :=
    let m' := StockMovement.set_pk (Some k)
                (StockMovement.set_created_at (Some now) m) in
    match StockMovement.to_row m' with
    | Some r => modify_db (set_movements (insert k r));; mret m'
    | None => raise IntegrityError
    end in
  match StockMovement.pk m with
  | Some k =>
      match movements db !! k with
      | Some _ => update k
      | None => insert_at k
      end
  | None => insert_at (fresh_pk (movements db))
  end.

(** [StockMovement.save], lines 168-170: the total value is computed
    when the price is set and the total is not. *)
Definition compute_total_value (m : StockMovement.t) : StockMovement.t :=
  match StockMovement.unit_price m with
  | Some price =>
      if truthy (Some price) && negb (truthy (StockMovement.total_value m))
      then StockMovement.set_total_value
             (Some (price * StockMovement.quantity m)) m
      else m
  | None => m
  end.

(** [StockMovement.save], lines 173-187: the body of [if is_new]. *)
Definition adjust_stock (m : StockMovement.t) : ORM StockMovement.t :=
  let m :=
    StockMovement.set_previous_stock
      (Some (Product.current_stock (StockMovement.product m).2)) m in
  product ← (if decide (StockMovement.movement_type m = "ADJ") then
               let product := Product.set_current_stock
                                (StockMovement.quantity m)
                                (StockMovement.product m) in
               product_save product;; mret product
             else
               try_except
                 (update_stock (StockMovement.product m)
                    (StockMovement.quantity m)
                    (StockMovement.movement_type m))
                 (λ e, match e with
                       | ValueError msg => raise (ValidationError msg)
                       | _ => raise e
                       end));
  mret (StockMovement.set_new_stock (Product.current_stock product.2)
          (StockMovement.set_product product m)).

(** [StockMovement.save] *)
Definition save (now : Z) (m : StockMovement.t) : ORM StockMovement.t :=
  if bool_decide (StockMovement.movement_type m ∉ ["IN"; "OUT"; "ADJ"]%string) then
    raise (ValueError "Tipo de movimiento no válido")
  else
    let is_new := bool_decide (StockMovement.pk m = None) in
    let m := compute_total_value m in
    m ← (if is_new then adjust_stock m else mret m);
    m ← model_save now m;
    match StockMovement.pk m with
    | Some k =>
        modify_db (set_movements
                     (alter (StockMovement.row_set_new_stock
                               (StockMovement.new_stock m)) k))
    | None => mret tt
    end;;
    mret m.

(** ** Queries *)

(** [Model.objects.filter(...)]: the rows that satisfy the condition, with
    their keys. *)
Definition select {A} (cond : A → bool) (table : gmap nat A) : list (nat * A) :=
  map_to_list (filter (λ kv, Is_true (cond kv.2)) table).

(** [Model.objects.get_or_create] with a lookup and defaults, on a table:
    the only row that matches, or a new row under a fresh key when none
    does; more than one match raises.  The result tells whether the row
    was created. *)
Definition get_or_create {A} (table : DB → gmap nat A)
    (set_table : (gmap nat A → gmap nat A) → DB → DB)
    (cond : A → bool) (new_row : A) : ORM (nat * A * bool) :=
  db ← get_db;
  match select cond (table db) with
  | [] =>
      let k := fresh_pk (table db) in
      modify_db (set_table (insert k new_row));;
      mret (k, new_row, true)
  | [(k, a)] => mret (k, a, false)
  | _ => raise MultipleObjectsReturned
  end.

(** The lookup [product=product, is_resolved=False] of both callers. *)
Definition unresolved_for (product_id : nat) (a : LowStockAlert.t) : bool :=
  bool_decide (LowStockAlert.product a = product_id)
  && negb (LowStockAlert.is_resolved a).

(** [LowStockAlert.objects.get_or_create(product=product,
    is_resolved=False, defaults={current_stock, minimum_stock})] *)
Definition alert_get_or_create (now : Z) (product : Product.obj)
  : ORM (nat * LowStockAlert.t * bool) :=
  get_or_create alerts set_alerts (unresolved_for product.1)
    (LowStockAlert.mk product.1 (Product.current_stock product.2)
       (Product.minimum_stock product.2) false now None).

(** ** [forms.py]: [StockMovementForm] *)

(** A submitted value after the field's conversion to Python: not sent,
    not convertible, or the converted value. *)
Inductive input (A : Type) :=
| Absent
| Malformed
| Given (a : A).
Arguments Absent {A}.
Arguments Malformed {A}.
Arguments Given {A} a.

Inductive form_error :=
| FieldError (field code : string)
| StockInsuficiente (stock_actual quantity : Z)
| ProductoNoValido
| NonFieldError (e : exn).

Module StockMovementForm.
(** The bound data of the form, one entry per name of [Meta.fields]. *)
Record t := mk {
  product : input nat;
  movement_type : string;
  quantity : input Z;
  unit_price : input Decimal;
  reference : string;
  notes : string
}.

(** The foreign key becomes a choice among all products; the chosen
    object is read from the table. *)
Definition clean_product (db : DB) (f : t) : form_error + Product.obj :=
  match product f with
  | Absent => inl (FieldError "product" "required")
  | Malformed => inl (FieldError "product" "invalid_choice")
  | Given k =>
      match products db !! k with
      | Some p => inr (k, p)
      | None => inl (FieldError "product" "invalid_choice")
      end
  end.

Definition clean_movement_type (f : t) : form_error + string :=
  if decide (movement_type f = "") then
    inl (FieldError "movement_type" "required")
  else if bool_decide (movement_type f ∈ ["IN"; "OUT"; "ADJ"]%string) then
    inr (movement_type f)
  else inl (FieldError "movement_type" "invalid_choice").

(** [MinValueValidator(1)] *)
Definition clean_quantity (f : t) : form_error + Z :=
  match quantity f with
  | Absent => inl (FieldError "quantity" "required")
  | Malformed => inl (FieldError "quantity" "invalid")
  | Given q =>
      if bool_decide (q < 1) then inl (FieldError "quantity" "min_value")
      else inr q
  end.

(** Optional; [MinValueValidator(Decimal('0.00'))] and at most ten
    digits, two of them decimals. *)
Definition clean_unit_price (f : t) : form_error + option Decimal :=
  match unit_price f with
  | Absent => inr None
  | Malformed => inl (FieldError "unit_price" "invalid")
  | Given v =>
      if bool_decide (v < 0) then inl (FieldError "unit_price" "min_value")
      else if bool_decide (10 ^ 10 ≤ v) then
        inl (FieldError "unit_price" "max_digits")
      else inr (Some v)
  end.

Definition clean_reference (f : t) : form_error + string :=
  if bool_decide (100 < String.length (reference f))%nat then
    inl (FieldError "reference" "max_length")
  else inr (reference f).

Definition value {A} (x : form_error + A) : option A :=
  match x with inr a => Some a | inl _ => None end.
Definition error {A} (x : form_error + A) : list form_error :=
  match x with inr _ => [] | inl e => [e] end.

(** [StockMovementForm.clean], on the values of the fields that passed
    their own validation. *)
Definition clean (db : DB) (product : option Product.obj)
    (movement_type : option string) (quantity : option Z)
  : list form_error :=
  match product, movement_type, quantity with
  | Some product, Some movement_type, Some quantity =>
      if bool_decide (movement_type = "OUT") && negb (quantity =? 0) then
        match products db !! product.1 with
        | Some current_product =>
            let stock_actual := Product.current_stock current_product in
            if bool_decide (stock_actual < quantity) then
              [StockInsuficiente stock_actual quantity]
            else []
        | None => [ProductoNoValido]
        end
      else []
  | _, _, _ => []
  end.

(** [form.errors] after [full_clean]. *)
Definition errors (db : DB) (f : t) : list form_error :=
  error (clean_product db f) ++ error (clean_movement_type f)
  ++ error (clean_quantity f) ++ error (clean_unit_price f)
  ++ error (clean_reference f)
  ++ clean db (value (clean_product db f)) (value (clean_movement_type f))
       (value (clean_quantity f)).

Definition is_valid (db : DB) (f : t) : bool :=
  bool_decide (errors db f = []).

(** [form.save(commit=False)]: the unsaved instance built from the
    cleaned data; the model's other fields have their defaults. *)
Definition instance (db : DB) (f : t) : option StockMovement.t :=
  match clean_product db f, clean_movement_type f, clean_quantity f,
        clean_unit_price f, clean_reference f with
  | inr product, inr movement_type, inr quantity, inr unit_price,
    inr reference =>
      Some (StockMovement.mk None product movement_type quantity unit_price
              None reference (notes f) None None None 0)
  | _, _, _, _, _ => None
  end.
End StockMovementForm.

(** ** [views.py] *)

Inductive http_method := GET | POST.

(** What a view answers: a redirect to a named URL, or a template
    rendered with the form's errors and the error message flashed for an
    exception, if any. *)
Inductive response :=
| Redirect (name : string)
| Render (template : string) (errors : list form_error) (flash : option exn).

(** The alert block of [stock_movement_create]. *)
Definition evaluate (now : Z) (product : Product.obj) : ORM unit :=
  if Product.is_low_stock product then
    alert_get_or_create now product;; mret tt
  else mret tt.

(** [stock_movement_create] for a request of [user].  A valid form always
    has an instance; the branch without one is there for totality. *)
Definition stock_movement_create (now : Z) (user : nat) (method : http_method)
    (form : StockMovementForm.t) (db : DB) : response * DB :=
  let again errors flash := Render "inventory/movement_form.html" errors flash in
  match method with
  | POST =>
      if StockMovementForm.is_valid db form then
        match StockMovementForm.instance db form with
        | Some movement =>
            let body :=
              atomic (
                let movement := StockMovement.set_created_by (Some user) movement in
                movement ← save now movement;
                let product := StockMovement.product movement in
                evaluate now product;;
                mret (Redirect "movement_list")) in
            match body db with
            | (inr r, db') => (r, db')
            | (inl (ValidationError msg), db') =>
                (again [NonFieldError (ValidationError msg)] None, db')
            | (inl e, db') => (again [] (Some e), db')
            end
        | None => (again (StockMovementForm.errors db form) None, db)
        end
      else (again (StockMovementForm.errors db form) None, db)
  | GET => (again [] None, db)
  end.

(** [resolve_alert]; [get_object_or_404] raises [Http404]. *)
Definition resolve_alert (now : Z) (method : http_method) (alert_id : nat)
  : ORM response :=
  match method with
  | POST =>
      db ← get_db;
      match alerts db !! alert_id with
      | Some alert =>
          let alert :=
            LowStockAlert.mk (LowStockAlert.product alert)
              (LowStockAlert.current_stock alert)
              (LowStockAlert.minimum_stock alert)
              true (LowStockAlert.created_at alert) (Some now) in
          modify_db (set_alerts (insert alert_id alert))
      | None => raise Http404
      end
  | GET => mret tt
  end;;
  mret (Redirect "low_stock_alerts").

(** ** [admin.py] *)

(** [LowStockAlertAdmin.mark_as_resolved] on the selected rows: one
    [UPDATE] of both columns; it returns the number of rows updated. *)
Definition mark_as_resolved (now : Z) (selected : list nat) : ORM nat :=
  db ← get_db;
  let hit (k : nat) := bool_decide (k ∈ selected) in
  modify_db (set_alerts (λ table,
    map_imap (λ k a,
      Some (if hit k then
              LowStockAlert.mk (LowStockAlert.product a)
                (LowStockAlert.current_stock a) (LowStockAlert.minimum_stock a)
                true (LowStockAlert.created_at a) (Some now)
            else a)) table));;
  mret (size (filter (λ kv, Is_true (hit kv.1)) (alerts db))).

(** [StockMovementAdmin.save_model] *)
Definition save_model (now : Z) (user : nat) (obj : StockMovement.t)
    (change : bool) : ORM StockMovement.t :=
  let obj := if negb change then StockMovement.set_created_by (Some user) obj
             else obj in
  save now obj.

(** ** [management/commands/check_low_stock.py] *)

Definition name_le (p q : Product.obj) : Prop :=
  Is_true (String.leb (Product.name p.2) (Product.name q.2)).
Global Instance name_le_dec : RelDecision name_le.
Proof. intros p q. unfold name_le. apply _. Defined.

(** The queryset of [handle]: active products at or below their minimum,
    in the model's default order (by name).  [models.F] is read as
    Django's [F]; the module takes [models] from a package
    [inventory.inventory] that is not among the sources, so what is said
    of a sweep is said of one that runs. *)
Definition low_stock_products (db : DB) : list Product.obj :=
  merge_sort name_le
    (select (λ p, Product.is_active p
                  && bool_decide (Product.current_stock p
                                  ≤ Product.minimum_stock p))
       (products db)).

Fixpoint handle_loop (now : Z) (low_stock_products : list Product.obj)
    (alerts_created : nat) : ORM nat :=
  match low_stock_products with
  | [] => mret alerts_created
  | product :: rest =>
      '(_, created) ← alert_get_or_create now product;
      handle_loop now rest
        (if created : bool then S alerts_created else alerts_created)
  end.

(** [Command.handle]; the result is [alerts_created]. *)
Definition handle (now : Z) : ORM nat :=
  db ← get_db;
  handle_loop now (low_stock_products db) 0%nat.

(** ** [views.py]: [csv_import] *)

Module CsvRow.
(** A row of the [csv.DictReader]: a text column is [None] when the
    file has no such column; a column that goes through [float] or [int]
    holds the outcome of that conversion. *)
Record t := mk {
  code : option string;
  name : option string;
  description : option string;
  category : option string;
  supplier : option string;
  unit_price : input Decimal;
  minimum_stock : input Z;
  maximum_stock : input Z;
  current_stock : input Z
}.
End CsvRow.

(** [row[key]] *)
Definition subscript (key : string) (cell : option string) : ORM string :=
  match cell with
  | Some v => mret v
  | None => raise (KeyError key)
  end.

(** [float(row[key])] *)
Definition float_of (key : string) (cell : input Decimal) : ORM Decimal :=
  match cell with
  | Given v => mret v
  | Malformed => raise (ValueError key)
  | Absent => raise (KeyError key)
  end.

(** [int(row.get(key, default))] *)
Definition int_of (key : string) (cell : input Z) (default : Z) : ORM Z :=
  match cell with
  | Given v => mret v
  | Malformed => raise (ValueError key)
  | Absent => mret default
  end.

(** [Product.objects.update_or_create(code=code, defaults=product_data)]:
    the product with that code gets the columns of [product_data] (its
    other columns stay), or a new product is created from both.
    [product_data] carries the entries of the dictionary; its [code] and
    [is_active] are not read. *)
Definition update_or_create (code : string) (product_data : Product.t)
  : ORM (Product.obj * bool) :=
  db ← get_db;
  match select (λ p, bool_decide (Product.code p = code)) (products db) with
  | [] =>
      let obj := (fresh_pk (products db),
                  Product.mk code (Product.name product_data)
                    (Product.description product_data)
                    (Product.category product_data)
                    (Product.supplier product_data)
                    (Product.unit_price product_data)
                    (Product.current_stock product_data)
                    (Product.minimum_stock product_data)
                    (Product.maximum_stock product_data) true) in
      product_save obj;; mret (obj, true)
  | [(k, p)] =>
      let obj := (k,
                  Product.mk (Product.code p) (Product.name product_data)
                    (Product.description product_data)
                    (Product.category product_data)
                    (Product.supplier product_data)
                    (Product.unit_price product_data)
                    (Product.current_stock product_data)
                    (Product.minimum_stock product_data)
                    (Product.maximum_stock product_data)
                    (Product.is_active p)) in
      product_save obj;; mret (obj, false)
  | _ => raise MultipleObjectsReturned
  end.

(** The body of the [try] of one row; it tells whether the product was
    created. *)
Definition import_row (row : CsvRow.t) : ORM bool :=
  category_name ← subscript "category" (CsvRow.category row);
  '(category, _, _) ← get_or_create categories set_categories
      (λ c, bool_decide (Category.name c = category_name))
      (Category.mk category_name "");
  supplier_name ← subscript "supplier" (CsvRow.supplier row);
  '(supplier, _, _) ← get_or_create suppliers set_suppliers
      (λ s, bool_decide (Supplier.name s = supplier_name))
      (Supplier.mk supplier_name true);
  name ← subscript "name" (CsvRow.name row);
  let description := default "" (CsvRow.description row) in
  unit_price ← float_of "unit_price" (CsvRow.unit_price row);
  minimum_stock ← int_of "minimum_stock" (CsvRow.minimum_stock row) 10;
  maximum_stock ← int_of "maximum_stock" (CsvRow.maximum_stock row) 1000;
  current_stock ← int_of "current_stock" (CsvRow.current_stock row) 0;
  let product_data :=
    Product.mk "" name description category supplier unit_price
               current_stock minimum_stock maximum_stock true in
  code ← subscript "code" (CsvRow.code row);
  '(_, created) ← update_or_create code product_data;
  mret (created : bool).

Record import_report := mk_report {
  created_count : nat;
  updated_count : nat;
  errors : list (nat * exn)
}.

(** The loop over the rows, numbered from [row_num], for a file that the
    reader reads to the end; [Reader.import_rows] is the loop with a
    reader that can raise. *)
Fixpoint import_rows (rows : list CsvRow.t) (row_num : nat)
    (report : import_report) : ORM import_report :=
  match rows with
  | [] => mret report
  | row :: rest =>
      report ← try_except
        (created ← import_row row;
         mret (if created : bool
               then mk_report (S (created_count report)) (updated_count report)
                              (errors report)
               else mk_report (created_count report) (S (updated_count report))
                              (errors report)))
        (λ e, mret (mk_report (created_count report) (updated_count report)
                              (errors report ++ [(row_num, e)])));
      import_rows rest (S row_num) report
  end.

(** [csv_import]; [upload] is the content of the file of a valid
    [CSVImportForm], [None] when the form is not valid. *)
Definition csv_import (method : http_method) (upload : option (list CsvRow.t))
    (db : DB) : response * option import_report * DB :=
  let again flash := Render "inventory/csv_import.html" [] flash in
  match method, upload with
  | POST, Some rows =>
      match atomic (import_rows rows 2 (mk_report 0 0 [])) db with
      | (inr report, db') => (Redirect "product_list", Some report, db')
      | (inl e, db') => (again (Some e), None, db')
      end
  | _, _ => (again None, None, db)
  end.

(** ** The application as a transition system *)

(** The requests and commands that write to the database.  An admin
    change of a movement reaches [save_model] with the instance as the
    admin form left it; the admin runs it in a transaction. *)
Inductive request :=
| StockMovementCreate (user : nat) (method : http_method)
    (form : StockMovementForm.t)
| CsvImport (method : http_method) (upload : option (list CsvRow.t))
| ResolveAlert (method : http_method) (alert_id : nat)
| MarkAsResolved (selected : list nat)
| SaveModel (user : nat) (obj : StockMovement.t) (change : bool)
| CheckLowStock.

(** The database after a request served at time [now]. *)
Definition step (now : Z) (r : request) (db : DB) : DB :=
  match r with
  | StockMovementCreate user method form =>
      (stock_movement_create now user method form db).2
  | CsvImport method upload => (csv_import method upload db).2
  | ResolveAlert method alert_id => (resolve_alert now method alert_id db).2
  | MarkAsResolved selected => (mark_as_resolved now selected db).2
  | SaveModel user obj change => (atomic (save_model now user obj change) db).2
  | CheckLowStock => (handle now db).2
  end.

(** A history: requests with the time at which each is served. *)
Definition run (history : list (Z * request)) (db : DB) : DB :=
  foldl (λ db r, step r.1 r.2 db) db history.

(** ** Predicates on the database *)

(** Every product has a balance that is not negative. *)
Definition stock_nonneg (db : DB) : Prop :=
  map_Forall (λ _ p, 0 ≤ Product.current_stock p) (products db).

(** The unresolved alerts of a product. *)
Definition unresolved_alerts (db : DB) (product_id : nat)
  : list (nat * LowStockAlert.t) :=
  select (unresolved_for product_id) (alerts db).

(** No product has two unresolved alerts. *)
Definition at_most_one_unresolved (db : DB) : Prop :=
  ∀ product_id, (length (unresolved_alerts db product_id) ≤ 1)%nat.

(** A row of a CSV file whose [current_stock] column, if it has one that
    [int] reads, is not negative. *)
Definition balance_nonneg (row : CsvRow.t) : Prop :=
  match CsvRow.current_stock row with
  | Given v => 0 ≤ v
  | _ => True
  end.

(** The requests that write no negative balance: an import validates
    nothing, so the rows of its file are asked to carry no negative
    balance; an instance reaches [save_model] from a form that holds
    [MinValueValidator(1)] on the quantity and carries a product read from
    the table; the movement form validates its input itself. *)
Definition accepted (r : request) : Prop :=
  match r with
  | CsvImport _ upload =>
      match upload with
      | Some rows => Forall balance_nonneg rows
      | None => True
      end
  | SaveModel _ obj _ =>
      1 ≤ StockMovement.quantity obj
      ∧ 0 ≤ Product.current_stock (StockMovement.product obj).2
  | _ => True
  end.

(** The requests that save an instance that has the key [k]. *)
Definition saves_again (k : nat) (r : request) : Prop :=
  match r with
  | SaveModel _ obj _ => StockMovement.pk obj = Some k
  | _ => False
  end.

Global Instance saves_again_dec k r : Decision (saves_again k r).
Proof. destruct r; simpl; apply _. Defined.

(** A computation preserves a part of the database when that part is
    the same after it, whatever it answers. *)
Definition preserves {A T} (part : DB → T) (c : ORM A) : Prop :=
  ∀ db r db', c db = (r, db') → part db' = part db.

(** ** What a first save writes *)

(** The instance of a movement that is saved for the first time, when
    its product ends with the balance [s]. *)
Definition saved (now : Z) (k u : nat) (s : Z) (m : StockMovement.t)
  : StockMovement.t :=
  StockMovement.mk (Some k)
    (Product.set_current_stock s (StockMovement.product m))
    (StockMovement.movement_type m) (StockMovement.quantity m)
    (StockMovement.unit_price m)
    (StockMovement.total_value (compute_total_value m))
    (StockMovement.reference m) (StockMovement.notes m) (Some u) (Some now)
    (Some (Product.current_stock (StockMovement.product m).2)) s.

Definition saved_row (now : Z) (u : nat) (s : Z) (m : StockMovement.t)
  : StockMovement.row :=
  StockMovement.mkrow (StockMovement.product m).1
    (StockMovement.movement_type m) (StockMovement.quantity m)
    (StockMovement.unit_price m)
    (StockMovement.total_value (compute_total_value m))
    (StockMovement.reference m) (StockMovement.notes m) u now
    (Product.current_stock (StockMovement.product m).2) s.

(** The balance that a movement of each type leaves, as [update_stock]
    and the [ADJ] branch compute it. *)
Inductive leaves (m : StockMovement.t) (s : Z) : Prop :=
| leaves_in :
    StockMovement.movement_type m = "IN" →
    s = Product.current_stock (StockMovement.product m).2
        + StockMovement.quantity m →
    leaves m s
| leaves_out :
    StockMovement.movement_type m = "OUT" →
    StockMovement.quantity m ≤ Product.current_stock (StockMovement.product m).2 →
    s = Product.current_stock (StockMovement.product m).2
        - StockMovement.quantity m →
    leaves m s
| leaves_adj :
    StockMovement.movement_type m = "ADJ" →
    s = StockMovement.quantity m →
    leaves m s.

(** ** Sample data *)

Definition widget : Product.t :=
  Product.mk "W-1" "Widget" "" 0 0 250 10 5 100 true.

(** The widget as an instance, once its balance is down to 4. *)
Definition low_widget : Product.obj :=
  Product.set_current_stock 4 (1%nat, widget).

Definition retired : Product.t :=
  Product.mk "R-1" "Retired item" "" 0 0 100 5 2 50 false.

Definition shop : DB :=
  set_products (λ _, {[ 1%nat := widget; 2%nat := retired ]}) empty_db.

Definition movement (movement_type : string) (quantity : Z)
    (unit_price : option Decimal) : StockMovement.t :=
  StockMovement.mk None (1%nat, widget) movement_type quantity unit_price
    None "" "" (Some 7%nat) None None 0.

(** The shop after an inbound movement of 3 widgets at 2.50, and that
    movement as the admin change form holds it with the quantity edited
    to 5. *)
Definition shop_with_ledger : DB :=
  (save 100 (movement "IN" 3 (Some 250)) shop).2.

Definition edited : StockMovement.t :=
  StockMovement.mk (Some 0%nat) (Product.set_current_stock 13 (1%nat, widget))
    "IN" 5 (Some 250) (Some 750) "" "" (Some 7%nat) (Some 100) (Some 10) 13.

(** The shop with an alert on the widget that was resolved at time 50. *)
Definition shop_with_alert : DB :=
  set_alerts (λ _, {[ 0%nat := LowStockAlert.mk 1 4 5 true 40 (Some 50) ]}) shop.

(** The shop with an open alert on the widget. *)
Definition shop_with_open_alert : DB :=
  set_alerts (λ _, {[ 0%nat := LowStockAlert.mk 1 4 5 false 40 None ]}) shop.

(** A row of a CSV file for the widget, with a balance of 99. *)
Definition widget_row : CsvRow.t :=
  CsvRow.mk (Some "W-1") (Some "Widget") None (Some "Tools") (Some "Acme")
    (Given 250) Absent Absent (Given 99).

Definition movement_form (product_id : nat) (movement_type : string)
    (quantity : Z) : StockMovementForm.t :=
  StockMovementForm.mk (Given product_id) movement_type (Given quantity)
    (Given 250) "" "".

(** ** [models.py]: [Product.stock_status] *)

(** [Product.stock_status] *)
Definition stock_status (self : Product.obj) : string :=
  if bool_decide (Product.current_stock self.2 = 0) then "Sin stock"
  else if bool_decide (Product.current_stock self.2
                       ≤ Product.minimum_stock self.2) then "Stock bajo"
  else if bool_decide (Product.current_stock self.2
                       >= Product.maximum_stock self.2) then "Stock alto"
  else "Stock normal".

(** [ProductAdmin.stock_status_display]: the colour and the text of the
    [span] it formats. *)
Definition stock_status_display (obj : Product.obj) : string * string :=
  if bool_decide (Product.current_stock obj.2 = 0) then ("red", "Sin stock")
  else if Product.is_low_stock obj then ("orange", "Stock bajo")
  else ("green", "Stock normal").

(** ** [forms.py]: [ProductForm], and its views *)

Module ProductForm.
(** The bound data of the form, one entry per name of [Meta.fields];
    [current_stock] is not among them. *)
Record t := mk {
  code : string;
  name : string;
  description : string;
  category : input nat;
  supplier : input nat;
  unit_price : input Decimal;
  minimum_stock : input Z;
  maximum_stock : input Z;
  is_active : bool
}.

(** [max_length=50], and the column is not blank. *)
Definition clean_code (f : t) : form_error + string :=
  if decide (code f = "") then inl (FieldError "code" "required")
  else if bool_decide (50 < String.length (code f))%nat then
    inl (FieldError "code" "max_length")
  else inr (code f).

Definition clean_name (f : t) : form_error + string :=
  if decide (name f = "") then inl (FieldError "name" "required")
  else if bool_decide (200 < String.length (name f))%nat then
    inl (FieldError "name" "max_length")
  else inr (name f).

(** A choice among the rows of a table. *)
Definition clean_choice {A} (field : string) (table : gmap nat A)
    (v : input nat) : form_error + nat :=
  match v with
  | Absent => inl (FieldError field "required")
  | Malformed => inl (FieldError field "invalid_choice")
  | Given k =>
      match table !! k with
      | Some _ => inr k
      | None => inl (FieldError field "invalid_choice")
      end
  end.

(** [MinValueValidator(Decimal('0.00'))], ten digits, two decimals. *)
Definition clean_unit_price (f : t) : form_error + Decimal :=
  match unit_price f with
  | Absent => inl (FieldError "unit_price" "required")
  | Malformed => inl (FieldError "unit_price" "invalid")
  | Given v =>
      if bool_decide (v < 0) then inl (FieldError "unit_price" "min_value")
      else if bool_decide (10 ^ 10 ≤ v) then
        inl (FieldError "unit_price" "max_digits")
      else inr v
  end.

(** An integer column with [MinValueValidator(limit)]. *)
Definition clean_stock (field : string) (limit : Z) (v : input Z)
  : form_error + Z :=
  match v with
  | Absent => inl (FieldError field "required")
  | Malformed => inl (FieldError field "invalid")
  | Given n =>
      if bool_decide (n < limit) then inl (FieldError field "min_value")
      else inr n
  end.

Definition value {A} (x : form_error + A) : option A :=
  match x with inr a => Some a | inl _ => None end.
Definition error {A} (x : form_error + A) : list form_error :=
  match x with inr _ => [] | inl e => [e] end.

(** [ProductForm.clean], on the values of [cleaned_data.get]: a missing
    entry and zero are false conditions. *)
Definition clean (minimum_stock maximum_stock : option Z) : list form_error :=
  match minimum_stock, maximum_stock with
  | Some minimum_stock, Some maximum_stock =>
      if negb (minimum_stock =? 0) && negb (maximum_stock =? 0)
         && bool_decide (minimum_stock >= maximum_stock)
      then [NonFieldError
              (ValidationError
                 "El stock mínimo debe ser menor al stock máximo.")]
      else []
  | _, _ => []
  end.

(** The uniqueness of [code]: no row with another key than the instance
    of the form has it. *)
Definition validate_unique (db : DB) (instance : option nat)
    (code : option string) : list form_error :=
  match code with
  | Some c =>
      if bool_decide
           (Forall (λ kp, Some kp.1 = instance)
              (select (λ p, bool_decide (Product.code p = c)) (products db)))
      then []
      else [FieldError "code" "unique"]
  | None => []
  end.

(** [form.errors] after [full_clean]. *)
Definition errors (db : DB) (instance : option nat) (f : t)
  : list form_error :=
  error (clean_code f) ++ error (clean_name f)
  ++ error (clean_choice "category" (categories db) (category f))
  ++ error (clean_choice "supplier" (suppliers db) (supplier f))
  ++ error (clean_unit_price f)
  ++ error (clean_stock "minimum_stock" 0 (minimum_stock f))
  ++ error (clean_stock "maximum_stock" 1 (maximum_stock f))
  ++ clean (value (clean_stock "minimum_stock" 0 (minimum_stock f)))
       (value (clean_stock "maximum_stock" 1 (maximum_stock f)))
  ++ validate_unique db instance (value (clean_code f)).

Definition is_valid (db : DB) (instance : option nat) (f : t) : bool :=
  bool_decide (errors db instance f = []).

(** The columns of the instance after the form's fields are assigned;
    [current_stock] is the one given: the default 0 of a new instance, or
    the balance of the instance that is edited. *)
Definition columns (db : DB) (current_stock : Z) (f : t) : option Product.t :=
  match clean_code f, clean_name f,
        clean_choice "category" (categories db) (category f),
        clean_choice "supplier" (suppliers db) (supplier f),
        clean_unit_price f,
        clean_stock "minimum_stock" 0 (minimum_stock f),
        clean_stock "maximum_stock" 1 (maximum_stock f) with
  | inr code, inr name, inr category, inr supplier, inr unit_price,
    inr minimum_stock, inr maximum_stock =>
      Some (Product.mk code name (description f) category supplier unit_price
              current_stock minimum_stock maximum_stock (is_active f))
  | _, _, _, _, _, _, _ => None
  end.
End ProductForm.

(** [product_create] *)
Definition product_create (method : http_method) (form : ProductForm.t)
    (db : DB) : response * DB :=
  let again errors := Render "inventory/product_form.html" errors None in
  match method with
  | POST =>
      if ProductForm.is_valid db None form then
        match ProductForm.columns db 0 form with
        | Some p =>
            (Redirect "product_list",
             set_products (insert (fresh_pk (products db)) p) db)
        | None => (again (ProductForm.errors db None form), db)
        end
      else (again (ProductForm.errors db None form), db)
  | GET => (again [], db)
  end.

(** [product_edit]; [get_object_or_404] comes first, for every method. *)
Definition product_edit (pk : nat) (method : http_method)
    (form : ProductForm.t) : ORM response :=
  let again errors := Render "inventory/product_form.html" errors None in
  db ← get_db;
  match products db !! pk with
  | None => raise Http404
  | Some product =>
      match method with
      | POST =>
          if ProductForm.is_valid db (Some pk) form then
            match ProductForm.columns db (Product.current_stock product)
                    form with
            | Some p => product_save (pk, p);; mret (Redirect "product_list")
            | None => mret (again (ProductForm.errors db (Some pk) form))
            end
          else mret (again (ProductForm.errors db (Some pk) form))
      | GET => mret (again [])
      end
  end.

(** ** [views.py]: the product list *)

Module ProductFilterForm.
Record t := mk {
  category : input nat;
  supplier : input nat;
  stock_status : string;
  search : string
}.

(** An optional choice among the rows of a table that satisfy [cond]. *)
Definition clean_choice {A} (field : string) (table : gmap nat A)
    (cond : A → bool) (v : input nat) : form_error + option nat :=
  match v with
  | Absent => inr None
  | Malformed => inl (FieldError field "invalid_choice")
  | Given k =>
      match table !! k with
      | Some a =>
          if cond a then inr (Some k)
          else inl (FieldError field "invalid_choice")
      | None => inl (FieldError field "invalid_choice")
      end
  end.

Definition set_stock_status (status : string) (f : t) : t :=
  mk (category f) (supplier f) status (search f).

Definition clean_stock_status (f : t) : form_error + string :=
  if bool_decide (stock_status f ∈ [""; "low"; "out"; "normal"]%string) then
    inr (stock_status f)
  else inl (FieldError "stock_status" "invalid_choice").

(** The cleaned data of a form that validates: the category among all
    categories, the supplier among the active ones. *)
Definition cleaned_data (db : DB) (f : t)
  : option (option nat * option nat * string * string) :=
  match clean_choice "category" (categories db) (λ _, true) (category f),
        clean_choice "supplier" (suppliers db) Supplier.is_active (supplier f),
        clean_stock_status f with
  | inr category, inr supplier, inr stock_status =>
      Some (category, supplier, stock_status, search f)
  | _, _, _ => None
  end.
End ProductFilterForm.

(** The join of [select_related('category', 'supplier')]: both rows
    exist. *)
Definition related (db : DB) (p : Product.t) : bool :=
  bool_decide (is_Some (categories db !! Product.category p))
  && bool_decide (is_Some (suppliers db !! Product.supplier p)).

(** The filter of [product_list] for a value of [stock_status]. *)
Definition stock_status_filter (status : string) (p : Product.t) : bool :=
  if decide (status = "low") then
    bool_decide (Product.current_stock p ≤ Product.minimum_stock p)
  else if decide (status = "out") then
    bool_decide (Product.current_stock p = 0)
  else if decide (status = "normal") then
    bool_decide (Product.current_stock p > Product.minimum_stock p)
    && bool_decide (Product.current_stock p > 0)
  else true.

(** [product_list], lines 93-118: the products handed to the paginator,
    in the default order of the model.  [icontains haystack needle] is the
    test of the database for [__icontains]. *)
Definition product_list (icontains : string → string → bool) (db : DB)
    (form : ProductFilterForm.t) : list Product.obj :=
  let keep (p : Product.t) : bool :=
    related db p && Product.is_active p
    && match ProductFilterForm.cleaned_data db form with
       | Some (category, supplier, status, search) =>
           match category with
           | Some k => bool_decide (Product.category p = k)
           | None => true
           end
           && match supplier with
              | Some k => bool_decide (Product.supplier p = k)
              | None => true
              end
           && (if decide (status = "") then true
               else stock_status_filter status p)
           && (if decide (search = "") then true
               else icontains (Product.code p) search
                    || icontains (Product.name p) search)
       | None => true
       end in
  merge_sort name_le (select keep (products db)).

(** ** [views.py]: the alerts page *)

Definition newer_first (x y : nat * LowStockAlert.t) : Prop :=
  LowStockAlert.created_at y.2 ≤ LowStockAlert.created_at x.2.
Global Instance newer_first_dec : RelDecision newer_first.
Proof. intros x y. unfold newer_first. apply _. Defined.


(** ** [management/commands/create_sample_data.py] *)

(** Lines 68-84: the loop that creates the movements of one product.
    [draws] holds what the random generator gives at each turn: the
    movement type, the quantity and the reference.  The product is one
    object for all the turns, so each turn sees the balance that the save
    of the turn before has left. *)
Fixpoint sample_movements (now : Z) (user : nat) (product : Product.obj)
    (draws : list (string * Z * string)) : ORM Product.obj :=
  match draws with
  | [] => mret product
  | (movement_type, quantity, reference) :: rest =>
      if bool_decide (movement_type = "OUT")
         && bool_decide (Product.current_stock product.2 < quantity)
      then sample_movements now user product rest
      else
        m ← save now
              (StockMovement.mk None product movement_type quantity
                 (Some (Product.unit_price product.2)) None reference ""
                 (Some user) None (Some (Product.current_stock product.2))
                 (Product.current_stock product.2
                  + (if decide (movement_type = "IN") then quantity
                     else - quantity)));
        sample_movements now user (StockMovement.product m) rest
  end.

(** ** [views.py]: [csv_import] with the reader of the file *)

Module Reader.
(** The loop of [csv_import] as the [for] statement runs it.  Each turn
    asks the [csv.DictReader] for the next row, outside the [try] of the
    row: [lines] holds, for each line after the header, the row that the
    reader yields or the exception that it raises there ([csv.Error]).
    That exception ends the loop and leaves the [with] block. *)
Fixpoint import_rows (lines : list (exn + CsvRow.t)) (row_num : nat)
    (report : import_report) : ORM import_report :=
  match lines with
  | [] => mret report
  | inl e :: _ => raise e
  | inr row :: rest =>
      report ← try_except
        (created ← import_row row;
         mret (if created : bool
               then mk_report (S (created_count report)) (updated_count report)
                              (errors report)
               else mk_report (created_count report) (S (updated_count report))
                              (errors report)))
        (λ e, mret (mk_report (created_count report) (updated_count report)
                              (errors report ++ [(row_num, e)])));
      import_rows rest (S row_num) report
  end.

(** [csv_import]; [upload] is the content of the file of a valid
    [CSVImportForm], [None] when the form is not valid.  An exception
    that leaves the transaction is flashed and the form is rendered
    again. *)
Definition csv_import (method : http_method)
    (upload : option (list (exn + CsvRow.t))) (db : DB)
  : response * option import_report * DB :=
  let again flash := Render "inventory/csv_import.html" [] flash in
  match method, upload with
  | POST, Some lines =>
      match atomic (import_rows lines 2 (mk_report 0 0 [])) db with
      | (inr report, db') => (Redirect "product_list", Some report, db')
      | (inl e, db') => (again (Some e), None, db')
      end
  | _, _ => (again None, None, db)
  end.
End Reader.

(** ** [forms.py]: [CSVImportForm], and the export *)

(** [str.endswith] *)
Definition ends_with (s suffix : string) : bool :=
  bool_decide (String.length suffix ≤ String.length s)%nat
  && bool_decide
       (String.substring (String.length s - String.length suffix)
          (String.length suffix) s = suffix).

Inductive csv_error :=
| NotCsv
| ReadError (inner : csv_error)
| EmptyFile
| MissingFields (fields : list string).

Definition required_fields : list string :=
  ["code"; "name"; "category"; "supplier"; "unit_price"]%string.

(** [CSVImportForm.clean_csv_file] on a file whose content is UTF-8:
    the test of the name and the [try] statement, for a file of that name
    whose reader has these [fieldnames] ([None] when the file has no
    line).  What is
    raised inside the [try] is caught and raised again, wrapped. *)
Definition clean_csv_file (name : string) (fieldnames : option (list string))
  : csv_error + unit :=
  if negb (ends_with name ".csv") then inl NotCsv
  else
    let body : csv_error + unit :=
      match fieldnames with
      | None | Some [] => inl EmptyFile
      | Some headers =>
          let missing_fields :=
            filter (λ field, field ∉ headers) required_fields in
          match missing_fields with
          | [] => inr tt
          | _ => inl (MissingFields missing_fields)
          end
      end in
    match body with
    | inl e => inl (ReadError e)
    | inr _ => inr tt
    end.

Module CSVImportForm.
(** What [clean_csv_file] does: it returns the file, it raises a
    [ValidationError], which makes the form invalid, or its [decode]
    raises, which no validation catches. *)
Inductive outcome :=
| Returned
| Invalid (e : csv_error)
| UnicodeDecodeError.

(** [CSVImportForm.clean_csv_file], whole.  [content] is [None] when
    the bytes of the file are not UTF-8, and else holds the [fieldnames]
    of its reader.  The content is decoded after the test of the name and
    before the [try]. *)
Definition clean_csv_file (name : string)
    (content : option (option (list string))) : outcome :=
  if negb (ends_with name ".csv") then Invalid NotCsv
  else
    match content with
    | None => UnicodeDecodeError
    | Some fieldnames =>
        match clean_csv_file name fieldnames with
        | inl e => Invalid e
        | inr _ => Returned
        end
    end.
End CSVImportForm.

(** A value written by [csv.writer]. *)
Inductive cell :=
| Text (s : string)
| Int (n : Z)
| Dec (d : Decimal).

(** [export_products_csv]: the rows written, the header first; the
    products are joined with their category and supplier. *)
Definition export_products_csv (db : DB) : list (list cell) :=
  [Text "Código"; Text "Nombre"; Text "Descripción"; Text "Categoría";
   Text "Proveedor"; Text "Precio unitario"; Text "Stock actual";
   Text "Stock mínimo"; Text "Stock máximo"]
  :: omap (λ product : Product.obj,
       category ← categories db !! Product.category product.2;
       supplier ← suppliers db !! Product.supplier product.2;
       Some [Text (Product.code product.2); Text (Product.name product.2);
             Text (Product.description product.2);
             Text (Category.name category); Text (Supplier.name supplier);
             Dec (Product.unit_price product.2);
             Int (Product.current_stock product.2);
             Int (Product.minimum_stock product.2);
             Int (Product.maximum_stock product.2)])
     (merge_sort name_le (select Product.is_active (products db))).

(** The text of a cell that holds text. *)
Definition cell_text (c : cell) : option string :=
  match c with Text s => Some s | _ => None end.

(** ** [management/commands/generate_reports.py] *)

(** [generate_low_stock_report]: the rows written after the header. *)
Definition generate_low_stock_report (db : DB) : list (list cell) :=
  omap (λ product : Product.obj,
    category ← categories db !! Product.category product.2;
    supplier ← suppliers db !! Product.supplier product.2;
    Some [Text (Product.code product.2); Text (Product.name product.2);
          Text (Category.name category); Text (Supplier.name supplier);
          Int (Product.current_stock product.2);
          Int (Product.minimum_stock product.2);
          Int (Product.current_stock product.2
               - Product.minimum_stock product.2)])
  (low_stock_products db).

(** ** [views.py]: the dashboard and [api_stock_alerts] *)

(** [api_stock_alerts]: the values of [name], [current_stock] and
    [minimum_stock] of the products of the queryset. *)
Definition api_stock_alerts (db : DB) : list (string * Z * Z) :=
  (λ product : Product.obj,
     (Product.name product.2, Product.current_stock product.2,
      Product.minimum_stock product.2)) <$> low_stock_products db.

Module Dashboard.
(** The entries of the context of [dashboard] that count products and
    suppliers, and the list of products with a low balance. *)
Record t := mk {
  total_products : nat;
  low_stock_products : nat;
  out_of_stock : nat;
  total_suppliers : nat;
  low_stock_list : list Product.obj
}.
End Dashboard.

(** [dashboard], lines 40-55. *)
Definition dashboard (db : DB) : Dashboard.t :=
  Dashboard.mk
    (length (select Product.is_active (products db)))
    (length (select (λ p, Product.is_active p
                          && bool_decide (Product.current_stock p
                                          ≤ Product.minimum_stock p))
               (products db)))
    (length (select (λ p, Product.is_active p
                          && bool_decide (Product.current_stock p = 0))
               (products db)))
    (length (select Supplier.is_active (suppliers db)))
    (take 5 (filter (λ product : Product.obj, Is_true (related db product.2))
               (low_stock_products db))).

(** ** More predicates and sample data *)

(** A computation keeps a property of the database when the property
    holds after it, whatever it answers, if it held before. *)
Definition keeps {A} (P : DB → Prop) (c : ORM A) : Prop :=
  ∀ db r db', c db = (r, db') → P db → P db'.


(** The values that an [IntegerField] holds on every database that
    Django supports. *)
Definition integer_field (v : Z) : Prop := -2147483648 ≤ v ≤ 2147483647.

(** The values, in hundredths, that a [DecimalField] of [max_digits]
    digits, two of them decimals, holds. *)
Definition decimal_field (max_digits : Z) (v : Decimal) : Prop :=
  - 10 ^ max_digits < v < 10 ^ max_digits.

(** The first save of the movement [m], which leaves the balance [s],
    writes values that their columns hold: the quantity, the balance read
    and the new balance in integer columns, the total value in a column
    of 12 digits.  The tables of the embedding hold unbounded integers, so
    a write never fails for its size here; what says that a write
    succeeds is stated for values that fit. *)
Definition fits_columns (m : StockMovement.t) (s : Z) : Prop :=
  integer_field (StockMovement.quantity m)
  ∧ integer_field (Product.current_stock (StockMovement.product m).2)
  ∧ integer_field s
  ∧ match StockMovement.total_value (compute_total_value m) with
    | Some v => decimal_field 12 v
    | None => True
    end.

(** No product has a negative minimum. *)
Definition minimum_nonneg (db : DB) : Prop :=
  map_Forall (λ _ p, 0 ≤ Product.minimum_stock p) (products db).

(** No two products have the same code. *)
Definition codes_unique (db : DB) : Prop :=
  ∀ k1 p1 k2 p2, products db !! k1 = Some p1 → products db !! k2 = Some p2 →
                 Product.code p1 = Product.code p2 → k1 = k2.


(** The shop with the category and the supplier of its products. *)
Definition store : DB :=
  set_categories (λ _, {[ 0%nat := Category.mk "Tools" "" ]})
    (set_suppliers (λ _, {[ 0%nat := Supplier.mk "Acme" true ]}) shop).

Definition gadget_form : ProductForm.t :=
  ProductForm.mk "G-1" "Gadget" "" (Given 0%nat) (Given 0%nat) (Given 990)
    (Given 0) (Given 40) true.

(** * Properties *)

(** ** The monad *)

Ltac orm_unfold :=
  unfold try_except, atomic, raise, get_db, modify_db,
    mbind, orm_bind, mret, orm_ret in *.

Ltac orm_simpl := orm_unfold; simpl in *.

(** ** Writing a movement *)

Lemma fresh_pk_None {A} (table : gmap nat A) : table !! fresh_pk table = None.
Proof. apply not_elem_of_dom, is_fresh. Qed.

Lemma compute_total_value_eq m :
  compute_total_value m
  = StockMovement.set_total_value
      (StockMovement.total_value (compute_total_value m)) m.
Proof. destruct m. unfold compute_total_value. simpl. by repeat case_match. Qed.

Lemma movement_type_cases (mt : string) :
  bool_decide (mt ∉ ["IN"; "OUT"; "ADJ"]%string) = false →
  mt = "IN"%string ∨ mt = "OUT"%string ∨ mt = "ADJ"%string.
Proof.
  intros H%bool_decide_eq_false_1%dec_stable.
  repeat (apply elem_of_cons in H as [->|H]); auto.
  by apply elem_of_nil in H.
Qed.

(** Unfolds [save] on an instance given by its fields, with the total
    value that [compute_total_value] leaves as a variable. *)
Ltac save_unfold m :=
  unfold save, saved, saved_row in *;
  let tv := fresh "tv" in
  let E := fresh "E" in
  pose proof (compute_total_value_eq m) as E;
  set (tv := StockMovement.total_value (compute_total_value m)) in *;
  clearbody tv; rewrite E in *; clear E;
  unfold adjust_stock, update_stock, product_save, model_save,
    StockMovement.to_row in *;
  orm_simpl.

Ltac leaves_solve :=
  first
    [ by apply leaves_adj
    | by apply leaves_in
    | apply leaves_out; simpl; [done| |reflexivity];
      match goal with H : bool_decide _ = true |- _ =>
        apply bool_decide_eq_true_1 in H; lia end ].

(** A first save that returns has written the product and one new row. *)
Lemma save_new_inv now m db m' db' :
  StockMovement.pk m = None →
  save now m db = (inr m', db') →
  ∃ s u, leaves m s
    ∧ StockMovement.created_by m = Some u
    ∧ m' = saved now (fresh_pk (movements db)) u s m
    ∧ db' = set_movements (insert (fresh_pk (movements db)) (saved_row now u s m))
              (set_products
                 (insert (StockMovement.product m).1
                    (Product.set_current_stock s (StockMovement.product m)).2)
                 db).
Proof.
  intros Hpk Hs. save_unfold m.
  destruct m as [pk p mt q up tv0 ref notes cb ca ps ns]; simpl in *; subst pk.
  destruct (bool_decide (mt ∉ _)) eqn:Hmt; [done|].
  apply movement_type_cases in Hmt as [-> | [-> | ->]]; simpl in Hs.
  all: repeat (case_match; simplify_eq/=).
  all: eexists _, _; split; [leaves_solve|split; [done|]].
  all: unfold set_movements, set_products; simpl.
  all: by rewrite alter_insert_eq.
Qed.

(** A first save of a movement that [leaves] a balance, by a known user,
    returns. *)
Lemma save_new_commits now m db s u :
  StockMovement.pk m = None →
  leaves m s →
  StockMovement.created_by m = Some u →
  save now m db
  = (inr (saved now (fresh_pk (movements db)) u s m),
     set_movements (insert (fresh_pk (movements db)) (saved_row now u s m))
       (set_products
          (insert (StockMovement.product m).1
             (Product.set_current_stock s (StockMovement.product m)).2)
          db)).
Proof.
  intros Hpk Hl Hu. save_unfold m.
  destruct m as [pk p mt q up tv0 ref notes cb ca ps ns]; simpl in *.
  subst pk cb.
  destruct Hl as [Ht Hs | Ht Hq Hs | Ht Hs]; simpl in *; subst mt s; simpl.
  all: rewrite ?bool_decide_eq_true_2 by lia; simpl.
  all: unfold set_movements, set_products; simpl.
  all: by rewrite alter_insert_eq.
Qed.

(** Whatever [save] answers, it leaves the other tables alone, writes at
    most the balance of its product, and writes at most one row of the
    ledger: the row of its own key, or a new row. *)
Lemma save_cases now m db r db' :
  save now m db = (r, db') →
  categories db' = categories db ∧ suppliers db' = suppliers db
  ∧ alerts db' = alerts db
  ∧ (products db' = products db
     ∨ ∃ s, StockMovement.pk m = None ∧ leaves m s
            ∧ products db'
              = <[(StockMovement.product m).1 :=
                    (Product.set_current_stock s (StockMovement.product m)).2]>
                  (products db))
  ∧ (movements db' = movements db
     ∨ ∃ k row, movements db' = <[k := row]> (movements db)
                ∧ (StockMovement.pk m = Some k
                   ∨ StockMovement.pk m = None ∧ movements db !! k = None)).
Proof.
  intros Hs. destruct (StockMovement.pk m) as [k|] eqn:Hpk.
  - save_unfold m.
    destruct m as [pk p mt q up tv0 ref notes cb ca ps ns]; simpl in *; subst pk.
    repeat (case_match; simplify_eq/=).
    all: repeat split; auto.
    all: right; rewrite alter_insert_eq; eexists _, _; split; [done|by left].
  - destruct r as [e|m'].
    + save_unfold m.
      destruct m as [pk p mt q up tv0 ref notes cb ca ps ns]; simpl in *; subst pk.
      destruct (bool_decide (mt ∉ _)) eqn:Hmt;
        [simplify_eq; repeat split; auto|].
      apply movement_type_cases in Hmt as [-> | [-> | ->]]; simpl in Hs.
      all: repeat (case_match; simplify_eq/=).
      all: repeat split; auto.
      all: right; eexists; split; [done|split; [leaves_solve|reflexivity]].
    + apply save_new_inv in Hs as (s & u & Hl & Hu & -> & ->); [|done].
      simpl. repeat split; auto.
      * right. eauto.
      * right. eexists _, _. split; [done|]. right. split; [done|].
        apply fresh_pk_None.
Qed.

(** ** Queries *)

Section select.
Context {A : Type} (cond : A → bool).
Implicit Types (table : gmap nat A) (k : nat) (a : A).

Lemma elem_of_select table k a :
  (k, a) ∈ select cond table ↔ table !! k = Some a ∧ cond a = true.
Proof.
  unfold select. rewrite elem_of_map_to_list, map_lookup_filter_Some. simpl.
  by rewrite Is_true_true.
Qed.

Lemma NoDup_select table : NoDup (select cond table).
Proof. apply NoDup_map_to_list. Qed.

Lemma select_nil table :
  select cond table = [] ↔ ∀ k a, table !! k = Some a → cond a = false.
Proof.
  split.
  - intros E k a Hk. destruct (cond a) eqn:Hc; [|done].
    assert ((k, a) ∈ select cond table) as Hin by by apply elem_of_select.
    rewrite E in Hin. by apply elem_of_nil in Hin.
  - intros H. destruct (select cond table) as [|[k a] l] eqn:E; [done|].
    assert ((k, a) ∈ select cond table) as Hin by (rewrite E; left).
    apply elem_of_select in Hin as [Hk Hc]. rewrite (H _ _ Hk) in Hc. done.
Qed.

(** At most one row is selected exactly when any two selected rows have
    the same key. *)
Lemma select_at_most_one table :
  (length (select cond table) ≤ 1)%nat
  ↔ ∀ k1 a1 k2 a2, table !! k1 = Some a1 → cond a1 = true →
                   table !! k2 = Some a2 → cond a2 = true → k1 = k2.
Proof.
  split.
  - intros Hlen k1 a1 k2 a2 H1 C1 H2 C2.
    assert ((k1, a1) ∈ select cond table) as I1 by by apply elem_of_select.
    assert ((k2, a2) ∈ select cond table) as I2 by by apply elem_of_select.
    destruct (select cond table) as [|x [|y l]]; simpl in Hlen; [| |lia].
    + by apply elem_of_nil in I1.
    + apply list_elem_of_singleton in I1, I2. congruence.
  - intros H. pose proof (NoDup_select table) as Hnd.
    destruct (select cond table) as [|[k1 a1] [|[k2 a2] l]] eqn:E;
      simpl; [lia..|].
    exfalso.
    assert ((k1, a1) ∈ select cond table) as [H1 C1]%elem_of_select
      by (rewrite E; left).
    assert ((k2, a2) ∈ select cond table) as [H2 C2]%elem_of_select
      by (rewrite E; right; left).
    pose proof (H _ _ _ _ H1 C1 H2 C2) as ->.
    assert (a1 = a2) as -> by congruence.
    apply NoDup_cons in Hnd as [Hn _]. apply Hn. left.
Qed.

Lemma select_singleton table k a :
  select cond table = [(k, a)] → table !! k = Some a ∧ cond a = true.
Proof. intros E. apply elem_of_select. rewrite E. left. Qed.

End select.

(** [get_or_create] creates under a fresh key when nothing matches,
    returns the match when there is one, and raises when there are
    several; only the first case writes. *)
Lemma get_or_create_cases {A} (table : DB → gmap nat A) set_table cond
    (new_row : A) db r db' :
  get_or_create table set_table cond new_row db = (r, db') →
  (select cond (table db) = []
   ∧ r = inr (fresh_pk (table db), new_row, true)
   ∧ db' = set_table (insert (fresh_pk (table db)) new_row) db)
  ∨ (∃ k a, select cond (table db) = [(k, a)]
            ∧ r = inr (k, a, false) ∧ db' = db)
  ∨ ((2 ≤ length (select cond (table db)))%nat
     ∧ r = inl MultipleObjectsReturned ∧ db' = db).
Proof.
  unfold get_or_create. orm_simpl.
  destruct (select cond (table db)) as [|[k a] [|y l]]; intros ?; simplify_eq.
  - by left.
  - right; left. eauto.
  - right; right. simpl. split; [lia|done].
Qed.

(** ** Alerts *)

Lemma unresolved_for_true product_id a :
  unresolved_for product_id a = true
  ↔ LowStockAlert.product a = product_id ∧ LowStockAlert.is_resolved a = false.
Proof.
  unfold unresolved_for.
  rewrite andb_true_iff, negb_true_iff, bool_decide_eq_true. done.
Qed.

(** The invariant, row by row. *)
Lemma at_most_one_unresolved_alt db :
  at_most_one_unresolved db
  ↔ ∀ k1 a1 k2 a2,
      alerts db !! k1 = Some a1 → alerts db !! k2 = Some a2 →
      LowStockAlert.is_resolved a1 = false →
      LowStockAlert.is_resolved a2 = false →
      LowStockAlert.product a1 = LowStockAlert.product a2 → k1 = k2.
Proof.
  unfold at_most_one_unresolved, unresolved_alerts. split.
  - intros H k1 a1 k2 a2 H1 H2 R1 R2 E.
    apply (proj1 (select_at_most_one _ _) (H (LowStockAlert.product a1))
             k1 a1 k2 a2); auto.
    all: by apply unresolved_for_true.
  - intros H product_id. apply select_at_most_one.
    intros k1 a1 k2 a2 H1 [E1 R1]%unresolved_for_true H2
      [E2 R2]%unresolved_for_true.
    eapply H; eauto. congruence.
Qed.

(** What the alert lookup of both callers does to the database. *)
Lemma alert_get_or_create_cases now product db r db' :
  alert_get_or_create now product db = (r, db') →
  db' = db
  ∨ (unresolved_alerts db product.1 = []
     ∧ db' = set_alerts
               (insert (fresh_pk (alerts db))
                  (LowStockAlert.mk product.1
                     (Product.current_stock product.2)
                     (Product.minimum_stock product.2) false now None)) db).
Proof.
  intros H. apply get_or_create_cases in H
    as [(E & _ & ->)|[(k & a & _ & _ & ->)|(_ & _ & ->)]]; auto.
Qed.


(** It only ever adds a row: the rows that exist stay as they are. *)
Lemma alert_get_or_create_frame now product db r db' :
  alert_get_or_create now product db = (r, db') →
  categories db' = categories db ∧ suppliers db' = suppliers db
  ∧ products db' = products db ∧ movements db' = movements db
  ∧ ∀ k a, alerts db !! k = Some a → alerts db' !! k = Some a.
Proof.
  intros H. apply alert_get_or_create_cases in H as [->|[E ->]]; [done|].
  simpl. repeat split; auto. intros k a Hk.
  rewrite lookup_insert_ne; [done|]. intros <-.
  by rewrite fresh_pk_None in Hk.
Qed.

Lemma evaluate_cases now product db r db' :
  evaluate now product db = (r, db') →
  db' = db
  ∨ (Product.is_low_stock product = true
     ∧ unresolved_alerts db product.1 = []
     ∧ db' = set_alerts
               (insert (fresh_pk (alerts db))
                  (LowStockAlert.mk product.1
                     (Product.current_stock product.2)
                     (Product.minimum_stock product.2) false now None)) db).
Proof.
  unfold evaluate. destruct (Product.is_low_stock product); orm_simpl.
  - destruct (alert_get_or_create now product db) as [[e|x] db1] eqn:E.
    all: apply alert_get_or_create_cases in E as [->|[E ->]].
    all: intros; simplify_eq; auto.
  - intros; simplify_eq; auto.
Qed.


Lemma evaluate_frame now product db r db' :
  evaluate now product db = (r, db') →
  categories db' = categories db ∧ suppliers db' = suppliers db
  ∧ products db' = products db ∧ movements db' = movements db
  ∧ ∀ k a, alerts db !! k = Some a → alerts db' !! k = Some a.
Proof.
  unfold evaluate. destruct (Product.is_low_stock product); orm_simpl.
  - destruct (alert_get_or_create now product db) as [[e|x] db1] eqn:E.
    all: intros; simplify_eq; eauto using alert_get_or_create_frame.
  - intros; by simplify_eq.
Qed.


Lemma handle_loop_frame now ps n db r db' :
  handle_loop now ps n db = (r, db') →
  categories db' = categories db ∧ suppliers db' = suppliers db
  ∧ products db' = products db ∧ movements db' = movements db
  ∧ ∀ k a, alerts db !! k = Some a → alerts db' !! k = Some a.
Proof.
  revert n db. induction ps as [|product ps IH]; intros n db; simpl.
  - orm_simpl. intros; by simplify_eq.
  - orm_simpl.
    destruct (alert_get_or_create now product db) as [[e|[[k a] c]] db1] eqn:E.
    + intros; simplify_eq. eauto using alert_get_or_create_frame.
    + intros H.
      apply alert_get_or_create_frame in E as (Ec & Es & Ep & Em & Ha).
      apply IH in H as (Hc & Hs & Hp & Hm & Hb).
      repeat split; [congruence..|auto].
Qed.

Lemma handle_unfold now db :
  handle now db = handle_loop now (low_stock_products db) 0%nat db.
Proof. done. Qed.

(** The invariant survives any change of the alerts that creates no
    unresolved row. *)
Lemma at_most_one_unresolved_mono db db' :
  (∀ k a, alerts db' !! k = Some a → LowStockAlert.is_resolved a = false →
          alerts db !! k = Some a) →
  at_most_one_unresolved db → at_most_one_unresolved db'.
Proof.
  rewrite !at_most_one_unresolved_alt. intros Hsub H k1 a1 k2 a2 H1 H2 R1 R2.
  apply H; auto.
Qed.

Lemma at_most_one_unresolved_alerts db db' :
  alerts db' = alerts db →
  at_most_one_unresolved db → at_most_one_unresolved db'.
Proof.
  intros E. apply at_most_one_unresolved_mono. intros k a. by rewrite E.
Qed.

(** The row that [resolve_alert] and [mark_as_resolved] write. *)
Lemma resolve_alert_cases now method alert_id db r db' :
  resolve_alert now method alert_id db = (r, db') →
  db' = db
  ∨ ∃ a, method = POST ∧ alerts db !! alert_id = Some a
         ∧ r = inr (Redirect "low_stock_alerts")
         ∧ db' = set_alerts
                   (insert alert_id
                      (LowStockAlert.mk (LowStockAlert.product a)
                         (LowStockAlert.current_stock a)
                         (LowStockAlert.minimum_stock a) true
                         (LowStockAlert.created_at a) (Some now))) db.
Proof.
  unfold resolve_alert. destruct method; orm_simpl.
  - intros; simplify_eq; auto.
  - destruct (alerts db !! alert_id) as [a|] eqn:E; intros; simplify_eq; eauto 10.
Qed.


Lemma mark_as_resolved_db now selected db :
  (mark_as_resolved now selected db).2
  = set_alerts (λ table,
      map_imap (λ k a,
        Some (if bool_decide (k ∈ selected) then
                LowStockAlert.mk (LowStockAlert.product a)
                  (LowStockAlert.current_stock a)
                  (LowStockAlert.minimum_stock a)
                  true (LowStockAlert.created_at a) (Some now)
              else a)) table) db.
Proof. done. Qed.


(** ** The movement form and its view *)

Lemma instance_inv db f m :
  StockMovementForm.instance db f = Some m →
  ∃ k p q price,
    StockMovementForm.product f = Given k
    ∧ products db !! k = Some p
    ∧ StockMovementForm.quantity f = Given q ∧ 1 ≤ q
    ∧ StockMovementForm.clean_movement_type f
      = inr (StockMovementForm.movement_type f)
    ∧ StockMovementForm.clean_unit_price f = inr price
    ∧ m = StockMovement.mk None (k, p) (StockMovementForm.movement_type f) q
            price None (StockMovementForm.reference f)
            (StockMovementForm.notes f) None None None 0.
Proof.
  unfold StockMovementForm.instance, StockMovementForm.clean_product,
    StockMovementForm.clean_quantity, StockMovementForm.clean_reference.
  intros H.
  destruct (StockMovementForm.product f) as [| |k]; try done.
  destruct (products db !! k) as [p|] eqn:Hk; [|done].
  destruct (StockMovementForm.clean_movement_type f) as [|mt] eqn:Hmt; [done|].
  destruct (StockMovementForm.quantity f) as [| |q]; try done.
  case_bool_decide; [done|].
  destruct (StockMovementForm.clean_unit_price f) as [|price]; [done|].
  case_bool_decide; [done|]. simplify_eq.
  assert (mt = StockMovementForm.movement_type f) as ->.
  { unfold StockMovementForm.clean_movement_type in Hmt.
    repeat case_match; by simplify_eq. }
  exists k, p, q, price. split_and!; auto; lia.
Qed.

(** A request either leaves the database as it was, or a movement was
    saved, the alert block ran, and both were committed. *)
Lemma stock_movement_create_cases now user method form db r db' :
  stock_movement_create now user method form db = (r, db') →
  db' = db
  ∨ ∃ m m' db1,
      StockMovementForm.instance db form = Some m
      ∧ StockMovementForm.is_valid db form = true
      ∧ save now (StockMovement.set_created_by (Some user) m) db = (inr m', db1)
      ∧ evaluate now (StockMovement.product m') db1 = (inr tt, db')
      ∧ r = Redirect "movement_list".
Proof.
  unfold stock_movement_create. destruct method; [intros; simplify_eq; auto|].
  destruct (StockMovementForm.is_valid db form) eqn:Hv;
    [|intros; simplify_eq; auto].
  destruct (StockMovementForm.instance db form) as [m|] eqn:Hi;
    [|intros; simplify_eq; auto].
  orm_simpl.
  destruct (save now _ db) as [[e|m'] db1] eqn:Hs.
  { intros; left. by repeat (case_match; simplify_eq). }
  destruct (evaluate now _ db1) as [[e|[]] db2] eqn:He.
  { intros; left. by repeat (case_match; simplify_eq). }
  intros; simplify_eq. right. eauto 10.
Qed.

(** A form that does not validate is rendered again with its errors and
    nothing is written. *)
Lemma stock_movement_create_invalid now user form db :
  StockMovementForm.is_valid db form = false →
  stock_movement_create now user POST form db
  = (Render "inventory/movement_form.html" (StockMovementForm.errors db form)
       None, db).
Proof.
  intros Hv. unfold stock_movement_create. by rewrite Hv.
Qed.

(** The balances stay non-negative across a movement request. *)
Lemma stock_movement_create_nonneg now user method form db :
  stock_nonneg db →
  stock_nonneg (stock_movement_create now user method form db).2.
Proof.
  intros Hdb.
  destruct (stock_movement_create now user method form db) as [r db'] eqn:E.
  apply stock_movement_create_cases in E
    as [->|(m & m' & db1 & Hi & _ & Hs & He & _)]; [done|].
  apply instance_inv in Hi as (k & p & q & price & _ & Hk & _ & Hq & _ & _ & ->).
  apply save_new_inv in Hs as (s & u & Hl & _ & -> & ->); [|done].
  apply evaluate_frame in He as (_ & _ & Hp & _). simpl in *.
  unfold stock_nonneg in *. rewrite Hp.
  apply map_Forall_insert_2; [|done]. simpl.
  pose proof (Hdb _ _ Hk) as Hp0. simpl in Hp0.
  destruct Hl as [_ ->|_ ? ->|_ ->]; simpl in *; lia.
Qed.

(** ** Computations that leave a part of the database alone *)

Section preserves.
Context {T : Type} (part : DB → T).

Lemma preserves_mret {A} (a : A) : preserves part (mret a).
Proof. intros db r db' H. orm_simpl. by simplify_eq. Qed.

Lemma preserves_raise {A} e : preserves part (raise (A:=A) e).
Proof. intros db r db' H. orm_simpl. by simplify_eq. Qed.

Lemma preserves_get_db : preserves part get_db.
Proof. intros db r db' H. orm_simpl. by simplify_eq. Qed.

Lemma preserves_bind {A B} (c : ORM A) (k : A → ORM B) :
  preserves part c → (∀ a, preserves part (k a)) → preserves part (c ≫= k).
Proof.
  intros Hc Hk db r db' H. orm_simpl.
  destruct (c db) as [[e|a] db1] eqn:E.
  - simplify_eq. eauto.
  - rewrite (Hk _ _ _ _ H). eauto.
Qed.

Lemma preserves_try_except {A} (c : ORM A) h :
  preserves part c → (∀ e, preserves part (h e)) →
  preserves part (try_except c h).
Proof.
  intros Hc Hh db r db' H. orm_simpl.
  destruct (c db) as [[e|a] db1] eqn:E.
  - rewrite (Hh _ _ _ _ H). eauto.
  - simplify_eq. eauto.
Qed.

Lemma preserves_atomic {A} (c : ORM A) :
  preserves part c → preserves part (atomic c).
Proof.
  intros Hc db r db' H. orm_simpl.
  destruct (c db) as [[e|a] db1] eqn:E; simplify_eq; eauto.
Qed.

Lemma preserves_modify_db f :
  (∀ db, part (f db) = part db) → preserves part (modify_db f).
Proof. intros Hf db r db' H. orm_simpl. by simplify_eq. Qed.

Lemma preserves_get_or_create {A} (table : DB → gmap nat A) set_table cond
    (new_row : A) :
  (∀ f db, part (set_table f db) = part db) →
  preserves part (get_or_create table set_table cond new_row).
Proof.
  intros Hf db r db' H.
  apply get_or_create_cases in H
    as [(_ & _ & ->)|[(k & a & _ & _ & ->)|(_ & _ & ->)]]; auto.
Qed.

End preserves.

(** ** The CSV import *)

Ltac preserves_step :=
  first
    [ apply preserves_bind; [|intros]
    | apply preserves_mret
    | apply preserves_raise
    | apply preserves_get_db
    | apply preserves_modify_db; by intros
    | apply preserves_get_or_create; by intros
    | apply preserves_try_except; [|intros]
    | progress case_match ].

Lemma update_or_create_preserves {T} (part : DB → T) code product_data :
  (∀ f db, part (set_products f db) = part db) →
  preserves part (update_or_create code product_data).
Proof.
  intros Hp. unfold update_or_create, product_save. repeat preserves_step.
Qed.

Lemma import_row_preserves {T} (part : DB → T) row :
  (∀ f db, part (set_categories f db) = part db) →
  (∀ f db, part (set_suppliers f db) = part db) →
  (∀ f db, part (set_products f db) = part db) →
  preserves part (import_row row).
Proof.
  intros Hc Hs Hp. unfold import_row, subscript, float_of, int_of.
  repeat first [apply update_or_create_preserves; by auto | preserves_step].
Qed.

Lemma import_rows_preserves {T} (part : DB → T) rows row_num report :
  (∀ f db, part (set_categories f db) = part db) →
  (∀ f db, part (set_suppliers f db) = part db) →
  (∀ f db, part (set_products f db) = part db) →
  preserves part (import_rows rows row_num report).
Proof.
  intros Hc Hs Hp. revert row_num report.
  induction rows as [|row rows IH]; intros row_num report; simpl.
  - apply preserves_mret.
  - apply preserves_bind; [|by intros].
    apply preserves_try_except; [|intros; apply preserves_mret].
    apply preserves_bind; [|intros; apply preserves_mret].
    by apply import_row_preserves.
Qed.

(** The import writes neither the ledger nor the alerts. *)
Lemma csv_import_preserves {T} (part : DB → T) method upload db :
  (∀ f db, part (set_categories f db) = part db) →
  (∀ f db, part (set_suppliers f db) = part db) →
  (∀ f db, part (set_products f db) = part db) →
  part (csv_import method upload db).2 = part db.
Proof.
  intros Hc Hs Hp. unfold csv_import.
  destruct method; [done|]. destruct upload as [rows|]; [|done].
  destruct (atomic _ db) as [[e|report] db'] eqn:E; simpl.
  all: eapply (preserves_atomic part); [|exact E].
  all: by apply import_rows_preserves.
Qed.

Lemma bind_inr {A B} (c : ORM A) (k : A → ORM B) db b db' :
  (c ≫= k) db = (inr b, db') →
  ∃ a db1, c db = (inr a, db1) ∧ k a db1 = (inr b, db').
Proof.
  orm_simpl. destruct (c db) as [[e|a] db1]; intros; simplify_eq. eauto.
Qed.

(** [update_or_create] stores the balance of [product_data] in the
    product it returns. *)
Lemma update_or_create_writes code product_data db obj created db' :
  update_or_create code product_data db = (inr (obj, created), db') →
  products db' !! obj.1 = Some obj.2
  ∧ Product.current_stock obj.2 = Product.current_stock product_data
  ∧ (created = true → Product.code obj.2 = code)
  ∧ (created = false → ∃ p, products db !! obj.1 = Some p
                            ∧ Product.code p = code
                            ∧ Product.code obj.2 = code).
Proof.
  unfold update_or_create, product_save. orm_simpl.
  destruct (select _ (products db)) as [|[k p] [|y l]] eqn:E;
    intros; simplify_eq/=.
  - rewrite lookup_insert_eq. split_and!; done.
  - apply select_singleton in E as [Hk Hc%bool_decide_eq_true_1].
    rewrite lookup_insert_eq. split_and!; eauto.
Qed.

(** A row that is imported leaves its [current_stock] column (0 when the
    file has none) as the balance of the product with its code. *)
Lemma import_row_writes row db created db' :
  import_row row db = (inr created, db') →
  ∃ k p code,
    CsvRow.code row = Some code
    ∧ products db' !! k = Some p
    ∧ Product.code p = code
    ∧ Product.current_stock p
      = match CsvRow.current_stock row with Given v => v | _ => 0 end.
Proof.
  unfold import_row. intros H.
  apply bind_inr in H as (category_name & db1 & _ & H).
  apply bind_inr in H as ([[category ?] ?] & db2 & _ & H).
  apply bind_inr in H as (supplier_name & db3 & _ & H).
  apply bind_inr in H as ([[supplier ?] ?] & db4 & _ & H).
  apply bind_inr in H as (name & db5 & _ & H).
  apply bind_inr in H as (unit_price & db6 & _ & H).
  apply bind_inr in H as (minimum_stock & db7 & _ & H).
  apply bind_inr in H as (maximum_stock & db8 & _ & H).
  apply bind_inr in H as (current_stock & db9 & Hcs & H).
  apply bind_inr in H as (code & db10 & Hcode & H).
  apply bind_inr in H as ([obj c] & db11 & Hu & H).
  orm_simpl. simplify_eq.
  apply update_or_create_writes in Hu as (Hk & Hs & Hc1 & Hc2).
  exists obj.1, obj.2, code. split_and!; auto.
  - unfold subscript in Hcode. orm_simpl.
    destruct (CsvRow.code row); by simplify_eq.
  - destruct created; [auto|]. by destruct Hc2 as (p & _ & _ & ?).
  - rewrite Hs. simpl. unfold int_of in Hcs. orm_simpl.
    destruct (CsvRow.current_stock row); by simplify_eq.
Qed.

(** ** Requests *)

(** An admin save either is rolled back or is a [save] that returned. *)
Lemma save_model_cases now user obj change db :
  (atomic (save_model now user obj change) db).2 = db
  ∨ ∃ obj' m',
      (obj' = obj ∨ obj' = StockMovement.set_created_by (Some user) obj)
      ∧ save now obj' db
        = (inr m', (atomic (save_model now user obj change) db).2).
Proof.
  unfold save_model.
  set (obj' := if negb change then _ else obj).
  assert (obj' = obj ∨ obj' = StockMovement.set_created_by (Some user) obj)
    as Hobj by (subst obj'; destruct change; auto).
  clearbody obj'. orm_simpl.
  destruct (save now obj' db) as [[e|m'] db1] eqn:E; simpl; eauto.
Qed.



(** ** Properties that a computation keeps *)

Section keeps.
Context (P : DB → Prop).

Lemma keeps_mret {A} (a : A) : keeps P (mret a).
Proof. intros db r db' H. orm_simpl. by simplify_eq. Qed.

Lemma keeps_raise {A} e : keeps P (raise (A:=A) e).
Proof. intros db r db' H. orm_simpl. by simplify_eq. Qed.

Lemma keeps_bind {A B} (c : ORM A) (k : A → ORM B) :
  keeps P c → (∀ a, keeps P (k a)) → keeps P (c ≫= k).
Proof.
  intros Hc Hk db r db' H HP. orm_simpl.
  destruct (c db) as [[e|a] db1] eqn:E.
  - simplify_eq. eauto.
  - eapply Hk; eauto.
Qed.

Lemma keeps_try_except {A} (c : ORM A) h :
  keeps P c → (∀ e, keeps P (h e)) → keeps P (try_except c h).
Proof.
  intros Hc Hh db r db' H HP. orm_simpl.
  destruct (c db) as [[e|a] db1] eqn:E.
  - eapply Hh; eauto.
  - simplify_eq. eauto.
Qed.

Lemma keeps_atomic {A} (c : ORM A) : keeps P c → keeps P (atomic c).
Proof.
  intros Hc db r db' H HP. orm_simpl.
  destruct (c db) as [[e|a] db1] eqn:E; simplify_eq; eauto.
Qed.

Lemma keeps_preserves {A T} (part : DB → T) (c : ORM A) :
  (∀ db db', part db' = part db → P db → P db') →
  preserves part c → keeps P c.
Proof. intros HP Hc db r db' H. apply HP. eauto. Qed.

(** The rule for a bind whose continuation needs a fact [Q] about the
    value bound. *)
Lemma keeps_bind_val {A B} (Q : A → Prop) (c : ORM A) (k : A → ORM B) :
  (∀ db a db1, c db = (inr a, db1) → Q a) →
  keeps P c → (∀ a, Q a → keeps P (k a)) → keeps P (c ≫= k).
Proof.
  intros HQ Hc Hk db r db' H HP. orm_simpl.
  destruct (c db) as [[e|a] db1] eqn:E.
  - simplify_eq. eauto.
  - eapply Hk; eauto.
Qed.

End keeps.

(** ** An import of balances that are not negative *)

Lemma stock_nonneg_products db db' :
  products db' = products db → stock_nonneg db → stock_nonneg db'.
Proof. unfold stock_nonneg. by intros ->. Qed.

Lemma update_or_create_nonneg code product_data :
  0 ≤ Product.current_stock product_data →
  keeps stock_nonneg (update_or_create code product_data).
Proof.
  intros Hs db r db'. unfold update_or_create, product_save. orm_simpl.
  destruct (select _ (products db)) as [|[k p] [|y l]] eqn:E;
    intros ? Hdb; simplify_eq; [| |done].
  all: by apply map_Forall_insert_2.
Qed.

Lemma import_row_nonneg row :
  balance_nonneg row → keeps stock_nonneg (import_row row).
Proof.
  intros Hrow. unfold import_row, subscript, float_of.
  assert (∀ {A} (table : DB → gmap nat A) set_table cond new_row,
            (∀ f db, products (set_table f db) = products db) →
            keeps stock_nonneg (get_or_create table set_table cond new_row))
    as Hgoc.
  { intros A table set_table cond new_row Hset.
    apply (keeps_preserves _ products); [apply stock_nonneg_products|].
    by apply preserves_get_or_create. }
  apply keeps_bind; [case_match; apply keeps_mret || apply keeps_raise|].
  intros category_name.
  apply keeps_bind; [by apply Hgoc|]. intros [[category ?] ?].
  apply keeps_bind; [case_match; apply keeps_mret || apply keeps_raise|].
  intros supplier_name.
  apply keeps_bind; [by apply Hgoc|]. intros [[supplier ?] ?].
  apply keeps_bind; [case_match; apply keeps_mret || apply keeps_raise|].
  intros name.
  apply keeps_bind; [case_match; apply keeps_mret || apply keeps_raise|].
  intros unit_price.
  apply keeps_bind;
    [unfold int_of; case_match; apply keeps_mret || apply keeps_raise|].
  intros minimum_stock.
  apply keeps_bind;
    [unfold int_of; case_match; apply keeps_mret || apply keeps_raise|].
  intros maximum_stock.
  apply (keeps_bind_val _ (λ v, 0 ≤ v)).
  - intros db a db1. unfold int_of, balance_nonneg in *. orm_simpl.
    destruct (CsvRow.current_stock row); intros; simplify_eq; done.
  - unfold int_of; case_match; apply keeps_mret || apply keeps_raise.
  - intros current_stock Hcs.
    apply keeps_bind; [case_match; apply keeps_mret || apply keeps_raise|].
    intros code.
    apply keeps_bind; [by apply update_or_create_nonneg|].
    intros [? ?]. apply keeps_mret.
Qed.

Lemma import_rows_nonneg rows row_num report :
  Forall balance_nonneg rows →
  keeps stock_nonneg (import_rows rows row_num report).
Proof.
  revert row_num report.
  induction rows as [|row rows IH]; intros row_num report Hrows; simpl.
  - apply keeps_mret.
  - apply Forall_cons in Hrows as [Hrow Hrows].
    apply keeps_bind; [|by intros; apply IH].
    apply keeps_try_except; [|intros; apply keeps_mret].
    apply keeps_bind; [|intros; apply keeps_mret].
    by apply import_row_nonneg.
Qed.


Lemma step_nonneg now r db :
  accepted r → stock_nonneg db → stock_nonneg (step now r db).
Proof.
  intros Hr Hdb. destruct r as [user method form|method upload|method alert_id
                               |selected|user obj change|]; simpl.
  - by apply stock_movement_create_nonneg.
  - unfold csv_import. destruct method; [done|].
    destruct upload as [rows|]; [|done].
    destruct (atomic _ db) as [[e|report] db'] eqn:E; simpl.
    all: eapply (keeps_atomic stock_nonneg); [|exact E|done].
    all: by apply import_rows_nonneg.
  - destruct (resolve_alert now method alert_id db) as [r db'] eqn:E; simpl.
    by apply resolve_alert_cases in E as [->|(a & _ & _ & _ & ->)].
  - done.
  - destruct Hr as [Hq Hp].
    destruct (save_model_cases now user obj change db)
      as [->|(obj' & m' & Hobj & Hs)]; [done|].
    unfold stock_nonneg in *.
    apply save_cases in Hs as (_ & _ & _ & [->|(s & _ & Hl & ->)] & _);
      [done|].
    apply map_Forall_insert_2; [|done].
    assert (StockMovement.quantity obj' = StockMovement.quantity obj
            ∧ StockMovement.product obj' = StockMovement.product obj)
      as [Eq Ep] by (by destruct Hobj as [->| ->]).
    destruct Hl as [_ ->|_ ? ->|_ ->]; rewrite ?Eq, ?Ep in *; simpl; lia.
  - destruct (handle now db) as [r db'] eqn:E; simpl.
    rewrite handle_unfold in E.
    apply handle_loop_frame in E as (_ & _ & Hp & _).
    unfold stock_nonneg. by rewrite Hp.
Qed.

(** What [save] answers about the total value, for a first save and for
    a save of an instance that is already stored. *)
Lemma save_total_value now m db m' db' :
  save now m db = (inr m', db') →
  StockMovement.total_value m'
  = StockMovement.total_value (compute_total_value m)
  ∧ ∃ k row, StockMovement.pk m' = Some k
             ∧ movements db' !! k = Some row
             ∧ StockMovement.r_total_value row = StockMovement.total_value m'
             ∧ StockMovement.r_quantity row = StockMovement.quantity m
             ∧ StockMovement.r_unit_price row = StockMovement.unit_price m.
Proof.
  intros Hs. destruct (StockMovement.pk m) as [k|] eqn:Hpk.
  - save_unfold m.
    destruct m as [pk p mt q up tv0 ref notes cb ca ps ns]; simpl in *; subst pk.
    repeat (case_match; simplify_eq/=).
    all: split; [done|]; eexists _, _; split; [done|].
    all: by rewrite lookup_alter_eq, lookup_insert_eq.
  - apply save_new_inv in Hs as (s & u & Hl & Hu & -> & ->); [|done].
    simpl. split; [done|]. eexists _, _. split; [done|].
    by rewrite lookup_insert_eq.
Qed.

Lemma select_insert_new {A} (cond : A → bool) (table : gmap nat A) k a :
  select cond table = [] → cond a = true →
  select cond (<[k:=a]> table) = [(k, a)].
Proof.
  unfold select. intros E%map_to_list_empty_iff Hc.
  rewrite map_filter_insert_True by (simpl; by rewrite Hc).
  rewrite E. rewrite insert_empty. apply map_to_list_singleton.
Qed.

(** Two lookups in a row: the second finds the alert that the first
    found or created, and writes nothing. *)
Lemma alert_get_or_create_twice now1 now2 product db :
  at_most_one_unresolved db →
  ∃ k a created db1,
    alert_get_or_create now1 product db = (inr (k, a, created), db1)
    ∧ alert_get_or_create now2 product db1 = (inr (k, a, false), db1)
    ∧ unresolved_alerts db1 product.1 = [(k, a)]
    ∧ (if created then unresolved_alerts db product.1 = []
                       ∧ alerts db !! k = None
                       ∧ db1 = set_alerts (insert k a) db
       else db1 = db).
Proof.
  intros Hinv. specialize (Hinv product.1).
  unfold alert_get_or_create, get_or_create, unresolved_alerts in *.
  orm_simpl.
  destruct (select _ (alerts db)) as [|[k a] [|y l]] eqn:E;
    simpl in Hinv; [| |lia].
  - eexists _, _, true, _. split; [reflexivity|]. simpl.
    rewrite (select_insert_new _ _ _ _ E)
      by (apply unresolved_for_true; done).
    split_and!; auto using fresh_pk_None.
  - exists k, a, false, db. rewrite E. done.
Qed.


Lemma evaluate_returns now product db :
  at_most_one_unresolved db → ∃ db', evaluate now product db = (inr tt, db').
Proof.
  intros Hinv. unfold evaluate.
  destruct (Product.is_low_stock product); orm_simpl; [|eauto].
  destruct (alert_get_or_create_twice now now product db Hinv)
    as (k & a & created & db1 & -> & _). eauto.
Qed.

(** * The claims *)

(** C1, as amended.  A movement request never takes the balance of a
    product that is not negative below zero: the product of the form has
    a balance that is not negative after the request, committed or not.
    So, starting from balances that are not negative, the balance of every
    product is not negative after every request of any history of requests
    that write no negative balance: movement requests of any type and
    quantity (the form rejects the rest), imports of files whose rows
    carry no negative balance, admin saves of validated instances, alert
    resolutions and low-stock sweeps. *)
Theorem balance_never_negative :
  (∀ now user method form db k p,
     StockMovementForm.product form = Given k →
     products db !! k = Some p →
     0 ≤ Product.current_stock p →
     ∃ p', products (stock_movement_create now user method form db).2 !! k
           = Some p'
           ∧ 0 ≤ Product.current_stock p')
  ∧ (∀ history db,
       Forall (λ tr, accepted tr.2) history →
       stock_nonneg db →
       stock_nonneg (run history db)).
Proof.
  split.
  - intros now user method form db k p Hf Hk Hp.
    destruct (stock_movement_create now user method form db) as [r db'] eqn:E.
    apply stock_movement_create_cases in E
      as [->|(m & m' & db1 & Hi & _ & Hs & He & _)]; [by exists p|].
    apply instance_inv in Hi
      as (k0 & p0 & q & price & Hf0 & Hk0 & _ & Hq & _ & _ & ->).
    assert (k0 = k) as -> by congruence.
    assert (p0 = p) as -> by congruence.
    apply save_new_inv in Hs as (s & u & Hl & _ & -> & ->); [|done].
    apply evaluate_frame in He as (_ & _ & Hpr & _). simpl in *.
    rewrite Hpr, lookup_insert_eq. eexists. split; [done|]. simpl.
    destruct Hl as [_ ->|_ ? ->|_ ->]; simpl in *; lia.
  - intros history. induction history as [|[now r] history IH];
      intros db Hh Hdb; [done|].
    apply Forall_cons in Hh as [Hr Hh]. simpl.
    apply IH; [done|]. by apply step_nonneg.
Qed.

Lemma balance_never_negative_witness :
  stock_nonneg
    (run [(100, StockMovementCreate 7 POST (movement_form 1 "OUT" 3));
          (101, CsvImport POST (Some [widget_row]));
          (102, StockMovementCreate 7 POST (movement_form 1 "OUT" 100));
          (103, StockMovementCreate 7 POST (movement_form 1 "ADJ" 50));
          (104, CheckLowStock)] shop)
  ∧ ∃ p', products
            (stock_movement_create 100 7 POST (movement_form 1 "OUT" 3)
               shop).2 !! 1%nat = Some p'
          ∧ 0 ≤ Product.current_stock p'.
Proof.
  split.
  - apply (proj2 balance_never_negative).
    + repeat first
        [ apply Forall_nil_2
        | apply Forall_cons; split
        | exact I
        | unfold balance_nonneg; simpl; lia
        | progress simpl ].
    + unfold stock_nonneg. apply (bool_decide_unpack _). vm_compute. exact I.
  - apply (proj1 balance_never_negative 100 7%nat POST
             (movement_form 1 "OUT" 3) shop 1%nat widget); [reflexivity|reflexivity|simpl; lia].
Defined.

(** The claim of C1 as the specification states it fails: the import
    validates nothing, so a file can store a balance of -5 for the widget,
    and the inbound movement of 3 that follows commits and leaves the
    balance at -2. *)
Lemma import_then_inbound_negative :
  ∃ report db1 db2,
    csv_import POST
      (Some [CsvRow.mk (Some "W-1") (Some "Widget") None (Some "Tools")
               (Some "Acme") (Given 250) Absent Absent (Given (-5))]) shop
    = (Redirect "product_list", Some report, db1)
    ∧ stock_movement_create 101 7 POST (movement_form 1 "IN" 3) db1
      = (Redirect "movement_list", db2)
    ∧ Product.current_stock <$> products db2 !! 1%nat = Some (-2).
Proof.
  eexists _, _, _. split; [by vm_compute|]. split; by vm_compute.
Qed.

(** C2.  An outbound movement for more than the balance of its product
    fails and writes nothing.  [save] raises the validation error
    "Stock insuficiente" and the database is the one it started from: no
    balance changed, no row added to the ledger.  The view renders the
    form again with its errors, among them the insufficient-stock error
    when the quantity is one the form accepts, and the database is
    unchanged too. *)
Theorem outbound_insufficient_balance (now : Z) (db : DB) (k : nat)
    (p : Product.t) (q : Z) :
  products db !! k = Some p →
  Product.current_stock p < q →
  (∀ m, StockMovement.pk m = None →
        StockMovement.product m = (k, p) →
        StockMovement.movement_type m = "OUT" →
        StockMovement.quantity m = q →
        save now m db = (inl (ValidationError "Stock insuficiente"), db))
  ∧ (∀ user form,
       StockMovementForm.product form = Given k →
       StockMovementForm.movement_type form = "OUT" →
       StockMovementForm.quantity form = Given q →
       ∃ errors,
         stock_movement_create now user POST form db
         = (Render "inventory/movement_form.html" errors None, db)
         ∧ errors ≠ []
         ∧ (1 ≤ q → StockInsuficiente (Product.current_stock p) q ∈ errors)).
Proof.
  intros Hk Hq. split.
  - intros m Hpk Hp Ht Hm. save_unfold m.
    destruct m as [pk p0 mt q0 up tv0 ref notes cb ca ps ns]; simpl in *.
    subst. simpl. rewrite bool_decide_eq_false_2 by lia. done.
  - intros user form Hf Ht Hfq.
    exists (StockMovementForm.errors db form).
    assert (StockMovementForm.errors db form ≠ []
            ∧ (1 ≤ q → StockInsuficiente (Product.current_stock p) q
                       ∈ StockMovementForm.errors db form)) as [Hne Hin].
    { unfold StockMovementForm.errors, StockMovementForm.clean_product,
        StockMovementForm.clean_movement_type, StockMovementForm.clean_quantity.
      rewrite Hf, Hk, Ht, Hfq. simpl.
      destruct (bool_decide (q < 1)) eqn:Hq1; simpl.
      - split; [done|]. apply bool_decide_eq_true_1 in Hq1. lia.
      - apply bool_decide_eq_false_1 in Hq1.
        assert ((q =? 0) = false) as -> by lia. rewrite Hk. simpl.
        rewrite bool_decide_eq_true_2 by lia.
        split.
        + intros E. apply (f_equal length) in E.
          rewrite !length_app in E. simpl in E. lia.
        + intros _. rewrite !elem_of_app. right; right. left. }
    split; [|done].
    apply stock_movement_create_invalid.
    unfold StockMovementForm.is_valid. by apply bool_decide_eq_false_2.
Qed.

Lemma outbound_insufficient_balance_witness :
  save 100 (movement "OUT" 100 None) shop
  = (inl (ValidationError "Stock insuficiente"), shop)
  ∧ ∃ errors,
      stock_movement_create 100 7 POST (movement_form 1 "OUT" 100) shop
      = (Render "inventory/movement_form.html" errors None, shop)
      ∧ errors ≠ []
      ∧ (1 ≤ 100 → StockInsuficiente 10 100 ∈ errors).
Proof.
  destruct (outbound_insufficient_balance 100 shop 1%nat widget 100)
    as [Hsave Hview]; [reflexivity|reflexivity|].
  split.
  - by apply Hsave.
  - by apply Hview.
Defined.

(** C3, as amended.  A movement that is saved for the first time and
    commits has [previous_stock] equal to the balance its product had, and
    [new_stock] equal to that balance plus the quantity for IN, minus the
    quantity for OUT, and to the quantity itself for ADJ; the product, in
    memory and in its table, has [new_stock] as its balance; and the row
    added to the ledger, under a key that was free, carries the same
    snapshots. *)
Theorem movement_snapshots (now : Z) (m : StockMovement.t) (db : DB)
    (m' : StockMovement.t) (db' : DB) :
  StockMovement.pk m = None →
  save now m db = (inr m', db') →
  StockMovement.previous_stock m'
  = Some (Product.current_stock (StockMovement.product m).2)
  ∧ (StockMovement.movement_type m = "IN"
     ∧ StockMovement.new_stock m'
       = Product.current_stock (StockMovement.product m).2
         + StockMovement.quantity m
     ∨ StockMovement.movement_type m = "OUT"
       ∧ StockMovement.new_stock m'
         = Product.current_stock (StockMovement.product m).2
           - StockMovement.quantity m
     ∨ StockMovement.movement_type m = "ADJ"
       ∧ StockMovement.new_stock m' = StockMovement.quantity m)
  ∧ Product.current_stock (StockMovement.product m').2
    = StockMovement.new_stock m'
  ∧ products db' !! (StockMovement.product m).1
    = Some (StockMovement.product m').2
  ∧ ∃ k row,
      StockMovement.pk m' = Some k
      ∧ movements db !! k = None
      ∧ movements db' !! k = Some row
      ∧ StockMovement.r_product_id row = (StockMovement.product m).1
      ∧ StockMovement.r_movement_type row = StockMovement.movement_type m
      ∧ StockMovement.r_quantity row = StockMovement.quantity m
      ∧ StockMovement.r_previous_stock row
        = Product.current_stock (StockMovement.product m).2
      ∧ StockMovement.r_new_stock row = StockMovement.new_stock m'.
Proof.
  intros Hpk Hs.
  apply save_new_inv in Hs as (s & u & Hl & Hu & -> & ->); [|done].
  simpl. split_and!.
  - done.
  - destruct Hl as [? ->|? ? ->|? ->]; auto.
  - done.
  - by rewrite lookup_insert_eq.
  - exists (fresh_pk (movements db)), (saved_row now u s m).
    rewrite lookup_insert_eq. split_and!; auto using fresh_pk_None.
Qed.

Lemma movement_snapshots_witness :
  ∃ m' db',
    save 100 (movement "ADJ" 50 None) shop = (inr m', db')
    ∧ StockMovement.previous_stock m' = Some 10
    ∧ StockMovement.new_stock m' = 50
    ∧ Product.current_stock <$> products db' !! 1%nat = Some 50.
Proof.
  destruct (save 100 (movement "ADJ" 50 None) shop) as [[e|m'] db'] eqn:E.
  - vm_compute in E. discriminate E.
  - exists m', db'. split; [reflexivity|].
    destruct (movement_snapshots 100 (movement "ADJ" 50 None) shop m' db'
                eq_refl E)
      as (Hprev & Hnew & Hbal & Hrow & _).
    split; [exact Hprev|].
    assert (StockMovement.new_stock m' = 50) as Hn.
    { destruct Hnew as [[Ht _]|[[Ht _]|[_ Hn]]];
        [discriminate Ht|discriminate Ht|exact Hn]. }
    split; [exact Hn|].
    simpl in Hrow. rewrite Hrow. simpl. by rewrite Hbal, Hn.
Defined.

(** The claim of C3 as the specification states it fails: the admin
    change of the first movement, an inbound movement of 3 from a balance
    of 10, with the quantity edited to 5, commits a record whose snapshots
    are still 10 and 13. *)
Lemma resaved_record_breaks_snapshots :
  ∃ m' db' row,
    atomic (save_model 200 7 edited true) shop_with_ledger = (inr m', db')
    ∧ movements db' !! 0%nat = Some row
    ∧ StockMovement.r_movement_type row = "IN"
    ∧ StockMovement.r_quantity row = 5
    ∧ StockMovement.r_previous_stock row = 10
    ∧ StockMovement.r_new_stock row = 13
    ∧ StockMovement.r_new_stock row
      ≠ StockMovement.r_previous_stock row + StockMovement.r_quantity row.
Proof.
  eexists _, _, _. split; [by vm_compute|]. split; [by vm_compute|].
  split_and!; by vm_compute.
Qed.



(** C5, as amended.  Resolving an alert that exists sets its resolved
    flag and replaces its resolved timestamp by the time of the request,
    whether or not the alert was resolved before; its other columns, the
    other alerts and the other tables stay as they are. *)
Theorem resolve_alert_overwrites (now : Z) (alert_id : nat) (db : DB)
    (a : LowStockAlert.t) :
  alerts db !! alert_id = Some a →
  resolve_alert now POST alert_id db
  = (inr (Redirect "low_stock_alerts"),
     set_alerts
       (insert alert_id
          (LowStockAlert.mk (LowStockAlert.product a)
             (LowStockAlert.current_stock a) (LowStockAlert.minimum_stock a)
             true (LowStockAlert.created_at a) (Some now))) db).
Proof. intros Ha. unfold resolve_alert. orm_simpl. by rewrite Ha. Qed.

Lemma resolve_alert_overwrites_witness :
  resolve_alert 60 POST 0 shop_with_alert
  = (inr (Redirect "low_stock_alerts"),
     set_alerts (insert 0%nat (LowStockAlert.mk 1 4 5 true 40 (Some 60)))
       shop_with_alert).
Proof.
  exact (resolve_alert_overwrites 60 0 shop_with_alert
           (LowStockAlert.mk 1 4 5 true 40 (Some 50)) eq_refl).
Defined.

(** The claim of C5 as the specification states it fails: the alert was
    resolved at time 50, and resolving it again at time 60 is not a no-op,
    it moves the resolved timestamp to 60. *)
Lemma resolve_alert_not_idempotent :
  LowStockAlert.is_resolved <$> alerts shop_with_alert !! 0%nat = Some true
  ∧ LowStockAlert.resolved_at <$> alerts shop_with_alert !! 0%nat
    = Some (Some 50)
  ∧ LowStockAlert.resolved_at
      <$> alerts (resolve_alert 60 POST 0 shop_with_alert).2 !! 0%nat
    = Some (Some 60)
  ∧ (resolve_alert 60 POST 0 shop_with_alert).2 ≠ shop_with_alert.
Proof.
  split_and!; by vm_compute.
Qed.




(** C7, as amended.  The CSV import never writes the ledger (nor the
    alerts): it leaves the movements as they were whatever the file holds.
    A row that is imported puts its [current_stock] column, 0 when the
    file has no such column, directly in the balance of the product with
    its code. *)
Theorem csv_import_bypasses_ledger :
  (∀ method upload db,
     movements (csv_import method upload db).2 = movements db
     ∧ alerts (csv_import method upload db).2 = alerts db)
  ∧ (∀ row db created db',
       import_row row db = (inr created, db') →
       movements db' = movements db
       ∧ ∃ k p code,
           CsvRow.code row = Some code
           ∧ products db' !! k = Some p
           ∧ Product.code p = code
           ∧ Product.current_stock p
             = match CsvRow.current_stock row with Given v => v | _ => 0 end).
Proof.
  split.
  - intros method upload db.
    split; by apply (csv_import_preserves _ method upload db).
  - intros row db created db' H. split.
    + by apply (import_row_preserves movements row) in H.
    + by apply import_row_writes in H.
Qed.

Lemma csv_import_bypasses_ledger_witness :
  ∃ created db',
    import_row widget_row shop = (inr created, db')
    ∧ movements db' = movements shop
    ∧ ∃ k p code,
        CsvRow.code widget_row = Some code
        ∧ products db' !! k = Some p
        ∧ Product.code p = code
        ∧ Product.current_stock p = 99.
Proof.
  destruct (import_row widget_row shop) as [[e|created] db'] eqn:E.
  - vm_compute in E. discriminate E.
  - exists created, db'. split; [reflexivity|].
    exact (proj2 csv_import_bypasses_ledger widget_row shop created db' E).
Defined.

(** The claim of C7 as the specification states it fails: importing a
    file with a row for the widget changes the balance of the widget from
    10 to 99 and the ledger stays empty. *)
Lemma csv_import_writes_balance :
  Product.current_stock <$> products shop !! 1%nat = Some 10
  ∧ (csv_import POST (Some [widget_row]) shop).1.1 = Redirect "product_list"
  ∧ Product.current_stock
      <$> products (csv_import POST (Some [widget_row]) shop).2 !! 1%nat
    = Some 99
  ∧ movements (csv_import POST (Some [widget_row]) shop).2 = ∅.
Proof. split_and!; by vm_compute. Qed.

(** C8, as amended.  The record that [save] commits has
    [total_value = unit_price * quantity] when the unit price is set and
    is not zero and no total value is set yet (none, or zero); a total
    value that is already set is kept as it is; and without a unit price
    the total value is left as it was, so it stays undefined for a record
    made from the form.  The row in the ledger stores that value. *)
Theorem total_value_computed (now : Z) (m : StockMovement.t) (db : DB)
    (m' : StockMovement.t) (db' : DB) :
  save now m db = (inr m', db') →
  (∀ price, StockMovement.unit_price m = Some price → price ≠ 0 →
            truthy (StockMovement.total_value m) = false →
            StockMovement.total_value m'
            = Some (price * StockMovement.quantity m))
  ∧ (truthy (StockMovement.total_value m) = true →
     StockMovement.total_value m' = StockMovement.total_value m)
  ∧ (StockMovement.unit_price m = None →
     StockMovement.total_value m' = StockMovement.total_value m)
  ∧ ∃ k row, StockMovement.pk m' = Some k
             ∧ movements db' !! k = Some row
             ∧ StockMovement.r_total_value row = StockMovement.total_value m'.
Proof.
  intros Hs. apply save_total_value in Hs as (-> & k & row & Hk & Hr & Ht & _).
  split_and!.
  - intros price Hp Hne Htv. unfold compute_total_value. rewrite Hp, Htv.
    simpl. by assert ((price =? 0) = false) as -> by lia.
  - intros Htv. unfold compute_total_value.
    destruct (StockMovement.unit_price m); [|done].
    by rewrite Htv, andb_false_r.
  - intros Hp. unfold compute_total_value. by rewrite Hp.
  - eauto.
Qed.

Lemma total_value_computed_witness :
  ∃ m' db',
    save 100 (movement "IN" 3 (Some 250)) shop = (inr m', db')
    ∧ StockMovement.total_value m' = Some 750.
Proof.
  destruct (save 100 (movement "IN" 3 (Some 250)) shop) as [[e|m'] db'] eqn:E.
  - vm_compute in E. discriminate E.
  - exists m', db'. split; [reflexivity|].
    destruct (total_value_computed 100 (movement "IN" 3 (Some 250)) shop
                m' db' E) as (Hprice & _).
    apply (Hprice 250); [reflexivity|discriminate|reflexivity].
Defined.

(** The claim of C8 as the specification states it fails on an admin
    change: the movement of 3 widgets at 2.50 is saved again with the
    quantity edited to 5, and its total value stays 7.50 where the unit
    price times the quantity is 12.50. *)
Lemma total_value_kept_on_change :
  ∃ m' db',
    atomic (save_model 200 7 edited true) shop_with_ledger = (inr m', db')
    ∧ StockMovement.unit_price m' = Some 250
    ∧ StockMovement.quantity m' = 5
    ∧ StockMovement.total_value m' = Some 750
    ∧ StockMovement.r_total_value <$> movements db' !! 0%nat = Some (Some 750)
    ∧ StockMovement.total_value m' ≠ Some (250 * 5).
Proof. eexists _, _. vm_compute. split_and!; try reflexivity. discriminate. Qed.

(** A unit price of 0.00 is a false condition: the total value of a
    movement saved with it stays unset. *)
Lemma zero_price_total_value_unset :
  ∃ m' db',
    save 100 (movement "IN" 3 (Some 0)) shop = (inr m', db')
    ∧ StockMovement.unit_price m' = Some 0
    ∧ StockMovement.total_value m' = None.
Proof. eexists _, _. vm_compute. split_and!; reflexivity. Qed.




(** C10.  When a product has an unresolved alert, the alert lookup of
    both callers, and the alert block of the movement view, leave the
    whole database as it is, so the alert keeps the balance and the
    minimum it was created with, whatever balance the product has by then.
    After a low-stock sweep and after any movement request the alert is
    still the same row. *)
Theorem existing_alert_untouched (now : Z) (product : Product.obj) (db : DB)
    (k : nat) (a : LowStockAlert.t) :
  alerts db !! k = Some a →
  unresolved_for product.1 a = true →
  (alert_get_or_create now product db).2 = db
  ∧ (evaluate now product db).2 = db
  ∧ alerts (handle now db).2 !! k = Some a
  ∧ ∀ user method form,
      alerts (stock_movement_create now user method form db).2 !! k = Some a.
Proof.
  intros Hk Hu.
  assert (unresolved_alerts db product.1 ≠ []) as Hne.
  { unfold unresolved_alerts. intros E. rewrite select_nil in E.
    rewrite (E _ _ Hk) in Hu. discriminate Hu. }
  split_and!.
  - destruct (alert_get_or_create now product db) as [r db'] eqn:E.
    by apply alert_get_or_create_cases in E as [->|[? _]].
  - destruct (evaluate now product db) as [r db'] eqn:E.
    by apply evaluate_cases in E as [->|(_ & ? & _)].
  - destruct (handle now db) as [r db'] eqn:E. rewrite handle_unfold in E.
    apply handle_loop_frame in E as (_ & _ & _ & _ & Ha). by apply Ha.
  - intros user method form.
    destruct (stock_movement_create now user method form db) as [r db'] eqn:E.
    apply stock_movement_create_cases in E
      as [->|(m & m' & db1 & _ & _ & Hs & He & _)]; [done|].
    apply save_cases in Hs as (_ & _ & Ha & _).
    apply evaluate_frame in He as (_ & _ & _ & _ & Hf).
    apply Hf. by rewrite Ha.
Qed.

Lemma existing_alert_untouched_witness :
  (evaluate 100 (Product.set_current_stock 2 (1%nat, widget))
     shop_with_open_alert).2
  = shop_with_open_alert
  ∧ alerts
      (stock_movement_create 100 7 POST (movement_form 1 "OUT" 8)
         shop_with_open_alert).2 !! 0%nat
    = Some (LowStockAlert.mk 1 4 5 false 40 None).
Proof.
  destruct (existing_alert_untouched 100
              (Product.set_current_stock 2 (1%nat, widget))
              shop_with_open_alert 0 (LowStockAlert.mk 1 4 5 false 40 None)
              eq_refl eq_refl) as (_ & Heval & _ & Hview).
  split.
  - exact Heval.
  - apply Hview.
Defined.

(** Scenario A of the specification: with a balance of 10 and a minimum
    of 5, two outbound movements of 3 leave 4 and one unresolved alert; an
    inbound movement of 10 leaves 14 and the alert is still unresolved. *)
Lemma scenario_A :
  Product.current_stock
    <$> products
          (run [(100, StockMovementCreate 7 POST (movement_form 1 "OUT" 3));
                (101, StockMovementCreate 7 POST (movement_form 1 "OUT" 3));
                (102, StockMovementCreate 7 POST (movement_form 1 "IN" 10))]
             shop) !! 1%nat
  = Some 14
  ∧ unresolved_alerts
      (run [(100, StockMovementCreate 7 POST (movement_form 1 "OUT" 3))] shop)
      1
    = []
  ∧ unresolved_alerts
      (run [(100, StockMovementCreate 7 POST (movement_form 1 "OUT" 3));
            (101, StockMovementCreate 7 POST (movement_form 1 "OUT" 3));
            (102, StockMovementCreate 7 POST (movement_form 1 "IN" 10))]
         shop) 1
    = [(0%nat, LowStockAlert.mk 1 4 5 false 101 None)].
Proof. split_and!; by vm_compute. Qed.
(** * Further properties *)

(** ** A save without a user *)

Lemma leaves_set_created_by u m s :
  leaves m s → leaves (StockMovement.set_created_by u m) s.
Proof.
  intros [Ht Hs|Ht Hq Hs|Ht Hs];
    [by apply leaves_in|by apply leaves_out|by apply leaves_adj].
Qed.

(** X1.  The instance that the movement form builds has no [created_by];
    the view sets it before it saves.  Saved as the form built it, the
    instance of a valid form, with values that fit their columns, raises
    [IntegrityError] when its row is inserted, after the new balance of
    the product has been written: on its own [save] leaves a balance
    change without a ledger row.  Inside a transaction the database is as
    before. *)
Theorem save_without_user_writes_balance (now : Z)
    (form : StockMovementForm.t) (db : DB) (m : StockMovement.t) (s : Z) :
  StockMovementForm.is_valid db form = true →
  StockMovementForm.instance db form = Some m →
  leaves m s →
  fits_columns m s →
  save now m db
  = (inl IntegrityError,
     set_products
       (insert (StockMovement.product m).1
          (Product.set_current_stock s (StockMovement.product m)).2) db)
  ∧ atomic (save now m) db = (inl IntegrityError, db).
Proof.
  intros _ Hi Hl _.
  apply instance_inv in Hi as (k & p & q & price & _ & _ & _ & _ & _ & _ & Hm).
  assert (save now m db
          = (inl IntegrityError,
             set_products
               (insert (StockMovement.product m).1
                  (Product.set_current_stock s (StockMovement.product m)).2)
               db)) as Hs.
  { save_unfold m. destruct form as [fp mt fq fprice ref notes].
    subst m. simpl in *.
    destruct Hl as [Ht Hs | Ht Hq Hs | Ht Hs]; simpl in *; subst; simpl.
    all: rewrite ?bool_decide_eq_true_2 by lia; simpl.
    all: done. }
  split; [done|]. unfold atomic. by rewrite Hs.
Qed.

Lemma save_without_user_writes_balance_witness :
  ∃ m,
    StockMovementForm.instance shop (movement_form 1 "IN" 3) = Some m
    ∧ Product.current_stock
        <$> products (save 100 m shop).2 !! 1%nat = Some 13
    ∧ movements (save 100 m shop).2 = movements shop
    ∧ atomic (save 100 m) shop = (inl IntegrityError, shop).
Proof.
  destruct (StockMovementForm.instance shop (movement_form 1 "IN" 3))
    as [m|] eqn:Hi; [|vm_compute in Hi; discriminate Hi].
  exists m. split; [reflexivity|].
  assert (leaves m 13 ∧ fits_columns m 13) as [Hl Hf].
  { vm_compute in Hi. injection Hi as <-. split.
    - by apply leaves_in.
    - unfold fits_columns, integer_field, decimal_field. simpl.
      split_and!; lia. }
  destruct (save_without_user_writes_balance 100 (movement_form 1 "IN" 3)
              shop m 13 eq_refl Hi Hl Hf) as [Hs Ha].
  rewrite Hs. simpl. split_and!; [|reflexivity|exact Ha].
  vm_compute in Hi. injection Hi as <-. simpl.
  rewrite lookup_insert_eq. reflexivity.
Defined.

(** ** The movement view *)

(** A form that validates has an instance, and an outbound quantity in
    it is covered by the balance in the table. *)
Lemma is_valid_inv db f :
  StockMovementForm.is_valid db f = true →
  ∃ m k p,
    StockMovementForm.instance db f = Some m
    ∧ StockMovementForm.product f = Given k
    ∧ products db !! k = Some p
    ∧ StockMovement.product m = (k, p)
    ∧ StockMovement.pk m = None
    ∧ 1 ≤ StockMovement.quantity m
    ∧ (StockMovement.movement_type m = "IN"
       ∨ StockMovement.movement_type m = "ADJ"
       ∨ StockMovement.movement_type m = "OUT"
         ∧ StockMovement.quantity m ≤ Product.current_stock p).
Proof.
  unfold StockMovementForm.is_valid, StockMovementForm.errors,
    StockMovementForm.instance.
  intros Hv%bool_decide_eq_true_1.
  repeat (apply app_eq_nil in Hv as [? Hv]).
  destruct (StockMovementForm.clean_product db f) as [|[k p]] eqn:Hp; [done|].
  destruct (StockMovementForm.clean_movement_type f) as [|mt] eqn:Hmt; [done|].
  destruct (StockMovementForm.clean_quantity f) as [|q] eqn:Hq; [done|].
  destruct (StockMovementForm.clean_unit_price f) as [|price]; [done|].
  destruct (StockMovementForm.clean_reference f) as [|ref]; [done|].
  simpl in Hv.
  unfold StockMovementForm.clean_product in Hp.
  destruct (StockMovementForm.product f) as [| |k']; try done.
  destruct (products db !! k') as [p'|] eqn:Hk; [|done]. simplify_eq.
  unfold StockMovementForm.clean_quantity in Hq.
  destruct (StockMovementForm.quantity f) as [| |q']; try done.
  destruct (bool_decide (q' < 1)) eqn:Hq1; [done|].
  apply bool_decide_eq_false_1 in Hq1. simplify_eq.
  unfold StockMovementForm.clean_movement_type in Hmt.
  destruct (decide (StockMovementForm.movement_type f = "")); [done|].
  destruct (bool_decide (_ ∈ _)) eqn:Hin; [|done].
  apply bool_decide_eq_true_1 in Hin. simplify_eq.
  eexists _, k, p. split_and!; try done; simpl; [lia|].
  repeat (apply elem_of_cons in Hin as [Hin|Hin]); auto.
  - right; right. split; [done|]. rewrite Hin in Hv. simpl in Hv.
    rewrite Hk in Hv.
    assert ((q =? 0) = false) as Hq0 by lia. rewrite Hq0 in Hv. simpl in Hv.
    destruct (bool_decide (Product.current_stock p < q)) eqn:Hlt; [done|].
    apply bool_decide_eq_false_1 in Hlt. lia.
  - by apply elem_of_nil in Hin.
Qed.

(** X2.  A movement request is all or nothing.  Either the form is
    rendered again and the database is exactly as before, or the answer is
    the redirect to the movement list and then one row was added to the
    ledger under a new key, for the product of the form, by the user of
    the request, at the time of the request, with the balance of the table
    as its previous stock; and the product has the new stock of that row
    as its balance, its other columns and all other products unchanged. *)
Theorem movement_request_all_or_nothing (now : Z) (user : nat)
    (method : http_method) (form : StockMovementForm.t) (db : DB)
    (r : response) (db' : DB) :
  stock_movement_create now user method form db = (r, db') →
  (∃ errors flash,
     r = Render "inventory/movement_form.html" errors flash ∧ db' = db)
  ∨ (r = Redirect "movement_list"
     ∧ ∃ k p row,
         StockMovementForm.product form = Given k
         ∧ products db !! k = Some p
         ∧ movements db !! fresh_pk (movements db) = None
         ∧ movements db' = <[fresh_pk (movements db) := row]> (movements db)
         ∧ StockMovement.r_product_id row = k
         ∧ StockMovement.r_created_by row = user
         ∧ StockMovement.r_created_at row = now
         ∧ StockMovement.r_previous_stock row = Product.current_stock p
         ∧ products db'
           = <[k := (Product.set_current_stock
                       (StockMovement.r_new_stock row) (k, p)).2]>
               (products db)).
Proof.
  unfold stock_movement_create. destruct method; [intros; simplify_eq; eauto|].
  destruct (StockMovementForm.is_valid db form) eqn:Hv;
    [|intros; simplify_eq; eauto].
  destruct (is_valid_inv _ _ Hv) as (m & k & p & Hi & Hf & Hk & Hp & Hpk & _).
  rewrite Hi. orm_simpl.
  destruct (save now _ db) as [[e|m'] db1] eqn:Hs.
  { intros; left. repeat (case_match; simplify_eq); eauto. }
  destruct (evaluate now _ db1) as [[e|[]] db2] eqn:He.
  { intros; left. repeat (case_match; simplify_eq); eauto. }
  intros; simplify_eq. right. split; [done|].
  apply save_new_inv in Hs as (s & u & Hl & Hu & -> & ->); [|done].
  apply evaluate_frame in He as (_ & _ & -> & -> & _).
  destruct m; simpl in *; simplify_eq.
  eexists k, p, _. split_and!; eauto using fresh_pk_None.
Qed.

Lemma movement_request_all_or_nothing_witness :
  ∃ k p row,
    StockMovementForm.product (movement_form 1 "OUT" 3) = Given k
    ∧ products shop !! k = Some p
    ∧ movements shop !! fresh_pk (movements shop) = None
    ∧ movements
        (stock_movement_create 100 7 POST (movement_form 1 "OUT" 3) shop).2
      = <[fresh_pk (movements shop) := row]> (movements shop)
    ∧ StockMovement.r_product_id row = k
    ∧ StockMovement.r_created_by row = 7%nat
    ∧ StockMovement.r_created_at row = 100
    ∧ StockMovement.r_previous_stock row = Product.current_stock p
    ∧ products
        (stock_movement_create 100 7 POST (movement_form 1 "OUT" 3) shop).2
      = <[k := (Product.set_current_stock
                  (StockMovement.r_new_stock row) (k, p)).2]>
          (products shop).
Proof.
  destruct (stock_movement_create 100 7 POST (movement_form 1 "OUT" 3) shop)
    as [r db'] eqn:E.
  destruct (movement_request_all_or_nothing 100 7 POST
              (movement_form 1 "OUT" 3) shop r db' E)
    as [(errors & flash & Hr & _)|[_ H]].
  - vm_compute in E. rewrite Hr in E. discriminate E.
  - exact H.
Defined.

(** X3.  When no product has two unresolved alerts, a form that
    validates, for a movement whose values fit their columns, is always
    committed: the answer is the redirect to the movement list, and the
    product has the balance that the movement leaves.  With what
    [is_valid] checks, neither the save nor the alert block can raise. *)
Theorem valid_form_commits (now : Z) (user : nat)
    (form : StockMovementForm.t) (db : DB) (m : StockMovement.t) (s : Z) :
  StockMovementForm.is_valid db form = true →
  StockMovementForm.instance db form = Some m →
  leaves m s →
  fits_columns m s →
  at_most_one_unresolved db →
  ∃ db',
    stock_movement_create now user POST form db
    = (Redirect "movement_list", db')
    ∧ Product.current_stock <$> products db' !! (StockMovement.product m).1
      = Some s.
Proof.
  intros Hv Hi Hl _ Hinv.
  destruct (is_valid_inv _ _ Hv)
    as (m0 & k & p & Hi0 & Hf & Hk & Hp & Hpk & Hq & Ht).
  assert (m0 = m) as -> by congruence.
  apply (leaves_set_created_by (Some user)) in Hl.
  pose proof (save_new_commits now
                (StockMovement.set_created_by (Some user) m) db s user
                Hpk Hl eq_refl) as Hs.
  match type of Hs with _ = (inr ?m1, ?d1) =>
    assert (at_most_one_unresolved d1) as Hinv1
      by (by apply (at_most_one_unresolved_alerts db));
    destruct (evaluate_returns now (StockMovement.product m1) d1 Hinv1)
      as [db' He]
  end.
  exists db'. unfold stock_movement_create. rewrite Hv, Hi.
  unfold atomic, mbind, orm_bind. rewrite Hs. simpl in He |- *.
  rewrite He. split; [done|].
  apply evaluate_frame in He as (_ & _ & -> & _). simpl.
  by rewrite lookup_insert_eq.
Qed.

Lemma valid_form_commits_witness :
  ∃ db',
    stock_movement_create 100 7 POST (movement_form 1 "OUT" 10) shop
    = (Redirect "movement_list", db')
    ∧ Product.current_stock <$> products db' !! 1%nat = Some 0.
Proof.
  apply (valid_form_commits 100 7 (movement_form 1 "OUT" 10) shop
           (StockMovement.mk None (1%nat, widget) "OUT" 10 (Some 250) None
              "" "" None None None 0) 0).
  - reflexivity.
  - reflexivity.
  - apply leaves_out; [reflexivity|simpl; lia|reflexivity].
  - unfold fits_columns, integer_field, decimal_field. simpl.
    split_and!; lia.
  - intros product_id. vm_compute. lia.
Defined.


(** ** The low-stock sweep *)

Lemma unresolved_alerts_kept db db' product_id :
  (∀ k a, alerts db !! k = Some a → alerts db' !! k = Some a) →
  unresolved_alerts db product_id ≠ [] →
  unresolved_alerts db' product_id ≠ [].
Proof.
  unfold unresolved_alerts. intros Hsub Hne E. apply Hne.
  rewrite select_nil in E |- *. intros k a Hk. eauto.
Qed.

Lemma handle_loop_count now ps n0 db n db' :
  handle_loop now ps n0 db = (inr n, db') →
  (size (alerts db') + n0 = size (alerts db) + n)%nat.
Proof.
  revert n0 db. induction ps as [|product ps IH]; intros n0 db; simpl.
  - orm_simpl. intros; by simplify_eq.
  - orm_simpl.
    destruct (alert_get_or_create now product db) as [[e|[[k a] c]] db1] eqn:E;
      [done|].
    intros H%IH.
    apply get_or_create_cases in E
      as [(_ & ? & ->)|[(? & ? & _ & ? & ->)|(_ & ? & _)]]; simplify_eq.
    + simpl in H. rewrite map_size_insert_None in H by apply fresh_pk_None.
      lia.
    + done.
Qed.

Lemma handle_loop_covers now ps n0 db n db' :
  handle_loop now ps n0 db = (inr n, db') →
  ∀ product, product ∈ ps → unresolved_alerts db' product.1 ≠ [].
Proof.
  revert n0 db. induction ps as [|product ps IH]; intros n0 db; simpl.
  - intros _ product Hin. by apply elem_of_nil in Hin.
  - orm_simpl.
    destruct (alert_get_or_create now product db) as [[e|[[k a] c]] db1] eqn:E;
      [done|].
    intros H product' [->|Hin]%elem_of_cons; [|by eapply IH].
    apply handle_loop_frame in H as (_ & _ & _ & _ & Hsub).
    apply (unresolved_alerts_kept db1); [done|].
    unfold unresolved_alerts.
    apply get_or_create_cases in E
      as [(Hn & ? & ->)|[(? & ? & Hs & ? & ->)|(_ & ? & _)]]; simplify_eq.
    + simpl. rewrite (select_insert_new _ _ _ _ Hn); [done|].
      by apply unresolved_for_true.
    + by rewrite Hs.
Qed.

Lemma elem_of_low_stock_products db k p :
  (k, p) ∈ low_stock_products db
  ↔ products db !! k = Some p
    ∧ Product.is_active p = true
    ∧ Product.current_stock p ≤ Product.minimum_stock p.
Proof.
  unfold low_stock_products. rewrite merge_sort_Permutation.
  rewrite elem_of_select, andb_true_iff, bool_decide_eq_true. tauto.
Qed.

(** X5.  A sweep that returns has counted the alerts it created: the
    alerts table has grown by exactly the number it reports.  It has
    written nothing else, and every active product whose balance is at or
    below its minimum has an unresolved alert afterwards. *)
Theorem sweep_creates_missing_alerts (now : Z) (db : DB) (n : nat)
    (db' : DB) :
  handle now db = (inr n, db') →
  size (alerts db') = (size (alerts db) + n)%nat
  ∧ products db' = products db
  ∧ movements db' = movements db
  ∧ (∀ k a, alerts db !! k = Some a → alerts db' !! k = Some a)
  ∧ ∀ k p, products db !! k = Some p →
           Product.is_active p = true →
           Product.current_stock p ≤ Product.minimum_stock p →
           unresolved_alerts db' k ≠ [].
Proof.
  rewrite handle_unfold. intros H.
  pose proof (handle_loop_count _ _ _ _ _ _ H) as Hc.
  pose proof (handle_loop_covers _ _ _ _ _ _ H) as Hcov.
  apply handle_loop_frame in H as (_ & _ & Hp & Hm & Ha).
  split_and!; auto; [lia|].
  intros k p Hk Hact Hlow.
  apply (Hcov (k, p)). by apply elem_of_low_stock_products.
Qed.

Lemma sweep_creates_missing_alerts_witness :
  ∃ n db',
    handle 100 (set_products (insert 1%nat low_widget.2) shop) = (inr n, db')
    ∧ size (alerts db') = (0 + n)%nat
    ∧ unresolved_alerts db' 1 ≠ [].
Proof.
  destruct (handle 100 (set_products (insert 1%nat low_widget.2) shop))
    as [[e|n] db'] eqn:E.
  - vm_compute in E. discriminate E.
  - exists n, db'. split; [reflexivity|].
    destruct (sweep_creates_missing_alerts 100 _ n db' E)
      as (Hsize & _ & _ & _ & Hcov).
    split; [exact Hsize|].
    apply (Hcov 1%nat low_widget.2); [reflexivity|reflexivity|].
    simpl. lia.
Defined.

Lemma select_insert_other {A} (cond : A → bool) (table : gmap nat A) k a :
  table !! k = None → cond a = false →
  select cond (<[k:=a]> table) = select cond table.
Proof.
  unfold select. intros Hk Hc.
  rewrite map_filter_insert_False by (simpl; rewrite Hc; exact id).
  by rewrite delete_id.
Qed.

(** The loop leaves the unresolved alerts of a product that has one as
    they are. *)
Lemma handle_loop_keeps now ps n0 db n db' product_id :
  handle_loop now ps n0 db = (inr n, db') →
  unresolved_alerts db product_id ≠ [] →
  unresolved_alerts db' product_id = unresolved_alerts db product_id.
Proof.
  revert n0 db. induction ps as [|product ps IH]; intros n0 db; simpl.
  - orm_simpl. intros; by simplify_eq.
  - orm_simpl.
    destruct (alert_get_or_create now product db) as [[e|[[k a] c]] db1] eqn:E;
      [done|].
    intros H Hne.
    assert (unresolved_alerts db1 product_id = unresolved_alerts db product_id)
      as E1.
    { apply alert_get_or_create_cases in E as [->|[Hnil ->]]; [done|].
      unfold unresolved_alerts. simpl.
      apply select_insert_other; [apply fresh_pk_None|].
      apply not_true_is_false. intros [Hp _]%unresolved_for_true.
      simpl in Hp. rewrite Hp in Hnil. done. }
    rewrite <- E1. eapply IH; [done|]. by rewrite E1.
Qed.

(** After a loop that returns, every product it visited has exactly one
    unresolved alert. *)
Lemma handle_loop_one now ps n0 db n db' :
  handle_loop now ps n0 db = (inr n, db') →
  ∀ product, product ∈ ps →
             ∃ k a, unresolved_alerts db' product.1 = [(k, a)].
Proof.
  revert n0 db. induction ps as [|product ps IH]; intros n0 db; simpl.
  - intros _ product Hin. by apply elem_of_nil in Hin.
  - orm_simpl.
    destruct (alert_get_or_create now product db) as [[e|[[k a] c]] db1] eqn:E;
      [done|].
    intros H product' [->|Hin]%elem_of_cons; [|by eapply IH].
    assert (unresolved_alerts db1 product.1 = [(k, a)]) as E1.
    { unfold unresolved_alerts.
      apply get_or_create_cases in E
        as [(E & ? & ->)|[(? & ? & E & ? & ->)|(_ & ? & _)]]; simplify_eq.
      - simpl. apply select_insert_new; [done|].
        apply unresolved_for_true. done.
      - done. }
    exists k, a. rewrite <- E1. eapply handle_loop_keeps; [done|].
    by rewrite E1.
Qed.

Lemma handle_loop_found now ps n0 db :
  (∀ product, product ∈ ps →
              ∃ k a, unresolved_alerts db product.1 = [(k, a)]) →
  handle_loop now ps n0 db = (inr n0, db).
Proof.
  revert n0. induction ps as [|product ps IH]; intros n0 Hps; [done|].
  simpl. orm_simpl.
  destruct (Hps product ltac:(left)) as (k & a & E).
  unfold alert_get_or_create, get_or_create, unresolved_alerts in *.
  orm_simpl. rewrite E.
  apply IH. intros product' Hin. apply Hps. by right.
Qed.

(** X6.  The sweep can be run again safely: after a sweep that returns,
    a second sweep right after it reports no alert created and leaves the
    database exactly as the first one left it. *)
Theorem sweep_rerun_is_noop (now1 now2 : Z) (db : DB) (n : nat) (db1 : DB) :
  handle now1 db = (inr n, db1) →
  handle now2 db1 = (inr 0%nat, db1).
Proof.
  rewrite !handle_unfold. intros H.
  pose proof (handle_loop_one _ _ _ _ _ _ H) as Hone.
  apply handle_loop_frame in H as (_ & _ & Hp & _).
  assert (low_stock_products db1 = low_stock_products db) as ->
    by (unfold low_stock_products; by rewrite Hp).
  by apply handle_loop_found.
Qed.

Lemma sweep_rerun_is_noop_witness :
  ∃ n db1,
    handle 100 (set_products (insert 1%nat low_widget.2) shop) = (inr n, db1)
    ∧ handle 101 db1 = (inr 0%nat, db1).
Proof.
  destruct (handle 100 (set_products (insert 1%nat low_widget.2) shop))
    as [[e|n] db1] eqn:E.
  - vm_compute in E. discriminate E.
  - exists n, db1. split; [reflexivity|].
    exact (sweep_rerun_is_noop 100 101 _ n db1 E).
Defined.

(** ** Resolving alerts *)

Lemma resolve_alert_db now alert_id db :
  (resolve_alert now POST alert_id db).2
  = set_alerts (alter (λ a, LowStockAlert.mk (LowStockAlert.product a)
                              (LowStockAlert.current_stock a)
                              (LowStockAlert.minimum_stock a) true
                              (LowStockAlert.created_at a) (Some now))
                  alert_id) db.
Proof.
  unfold resolve_alert. orm_simpl.
  destruct (alerts db !! alert_id) as [a|] eqn:E; simpl.
  - unfold set_alerts. f_equal. apply map_eq. intros k.
    rewrite lookup_alter, lookup_insert. case_decide; simplify_eq; [|done].
    by rewrite E.
  - unfold set_alerts. destruct db; simpl in *. f_equal.
    apply map_eq. intros k. rewrite lookup_alter.
    case_decide; simplify_eq; [|done]. by rewrite E.
Qed.

(** X7.  The admin action on a selection of alerts does what the alert
    view does for each of them in turn: the database after
    [mark_as_resolved] is the database after one [resolve_alert] request
    per selected key, made at the same time.  Keys that have no alert
    change nothing in either. *)
Theorem mark_as_resolved_resolves_each (now : Z) (selected : list nat)
    (db : DB) :
  (mark_as_resolved now selected db).2
  = foldr (λ alert_id db, (resolve_alert now POST alert_id db).2) db selected.
Proof.
  rewrite mark_as_resolved_db.
  induction selected as [|alert_id selected IH]; simpl.
  - unfold set_alerts. destruct db; simpl. f_equal.
    apply map_eq. intros k. rewrite map_lookup_imap.
    by destruct (_ !! k).
  - rewrite resolve_alert_db, <- IH. unfold set_alerts. simpl. f_equal.
    apply map_eq. intros k.
    rewrite lookup_alter, !map_lookup_imap.
    destruct (decide (alert_id = k)) as [->|Hne].
    + destruct (alerts db !! k) as [a|]; simpl; [|done].
      rewrite bool_decide_eq_true_2 by left. by case_bool_decide.
    + destruct (alerts db !! k) as [a|]; simpl; [|done].
      destruct (bool_decide (k ∈ selected)) eqn:Hin.
      * apply bool_decide_eq_true_1 in Hin.
        by rewrite bool_decide_eq_true_2 by (by right).
      * apply bool_decide_eq_false_1 in Hin.
        rewrite bool_decide_eq_false_2; [done|].
        intros [?|?]%elem_of_cons; done.
Qed.

(** ** The CSV import, row by row *)

Lemma import_rows_report rows row_num report db :
  ∃ report' db' new,
    import_rows rows row_num report db = (inr report', db')
    ∧ (created_count report' + updated_count report' + length new
       = created_count report + updated_count report + length rows)%nat
    ∧ errors report' = errors report ++ new
    ∧ Forall (λ e, (row_num ≤ e.1 < row_num + length rows)%nat) new.
Proof.
  revert row_num report db.
  induction rows as [|row rows IH]; intros row_num report db; simpl.
  - exists report, db, []. orm_simpl. rewrite app_nil_r.
    split_and!; [done|simpl; lia|done|constructor].
  - orm_simpl. destruct (import_row row db) as [[e|created] db1]; simpl.
    + destruct (IH (S row_num)
                  (mk_report (created_count report) (updated_count report)
                     (errors report ++ [(row_num, e)])) db1)
        as (report' & db' & new & -> & Hc & He & Hn). simpl in *.
      exists report', db', ((row_num, e) :: new).
      split_and!; [done|simpl; lia|by rewrite He, <- app_assoc|].
      constructor; [simpl; lia|].
      eapply Forall_impl; [exact Hn|]. simpl. intros; lia.
    + destruct created.
      * destruct (IH (S row_num)
                    (mk_report (S (created_count report))
                       (updated_count report) (errors report)) db1)
          as (report' & db' & new & -> & Hc & He & Hn). simpl in *.
        exists report', db', new. split_and!; [done|lia|done|].
        eapply Forall_impl; [exact Hn|]. simpl. intros; lia.
      * destruct (IH (S row_num)
                    (mk_report (created_count report)
                       (S (updated_count report)) (errors report)) db1)
          as (report' & db' & new & -> & Hc & He & Hn). simpl in *.
        exists report', db', new. split_and!; [done|lia|done|].
        eapply Forall_impl; [exact Hn|]. simpl. intros; lia.
Qed.

(** On a file that the reader reads to the end, the import with the
    reader is the import of the rows. *)
Lemma reader_import_rows rows row_num report db :
  Reader.import_rows (inr <$> rows) row_num report db
  = import_rows rows row_num report db.
Proof.
  revert row_num report db.
  induction rows as [|row rows IH]; intros row_num report db; simpl; [done|].
  orm_simpl. destruct (import_row row db) as [[e|created] db1]; simpl.
  all: apply IH.
Qed.

(** A line that the reader cannot read ends the loop with its exception,
    whatever the lines before it hold. *)
Lemma reader_import_rows_raises lines row_num report db e :
  inl e ∈ lines →
  ∃ e' db', inl e' ∈ lines
            ∧ Reader.import_rows lines row_num report db = (inl e', db').
Proof.
  revert row_num report db.
  induction lines as [|[e0|row] lines IH]; intros row_num report db Hin.
  - by apply elem_of_nil in Hin.
  - exists e0, db. split; [left|done].
  - apply elem_of_cons in Hin as [?|Hin]; [done|].
    simpl. orm_simpl.
    destruct (import_row row db) as [[e1|created] db1]; simpl.
    all: match goal with
         | |- context [Reader.import_rows _ ?n ?r ?d] =>
             destruct (IH n r d Hin) as (e' & db' & He' & ->)
         end.
    all: exists e', db'; split; [by right|done].
Qed.

Lemma reader_lines_cases (lines : list (exn + CsvRow.t)) :
  (∃ rows, lines = inr <$> rows) ∨ (∃ e, inl (B:=CsvRow.t) e ∈ lines).
Proof.
  induction lines as [|[e|row] lines [[rows ->]|[e' Hin]]].
  - left. by exists [].
  - right. exists e. left.
  - right. exists e. left.
  - left. by exists (row :: rows).
  - right. exists e'. by right.
Qed.

(** X8.  An import accounts for every row, or for none.  When the
    reader reads the file to the end, the import ends with the redirect to
    the product list, whatever the rows hold: a row that raises is
    recorded and the loop goes on, every row is counted once, as created,
    as updated or as an error, and each error carries the number of a line
    of the file, counted from 2.  When the reader raises on a line, the
    import ends there: the exception is flashed on the import page and the
    database is as it was before the import. *)
Theorem csv_import_accounts_for_every_row (lines : list (exn + CsvRow.t))
    (db : DB) :
  (∃ rows report db',
     lines = inr <$> rows
     ∧ Reader.csv_import POST (Some lines) db
       = (Redirect "product_list", Some report, db')
     ∧ csv_import POST (Some rows) db
       = (Redirect "product_list", Some report, db')
     ∧ (created_count report + updated_count report + length (errors report)
        = length rows)%nat
     ∧ Forall (λ e, (2 ≤ e.1 < 2 + length rows)%nat) (errors report))
  ∨ (∃ e,
       inl e ∈ lines
       ∧ Reader.csv_import POST (Some lines) db
         = (Render "inventory/csv_import.html" [] (Some e), None, db)).
Proof.
  destruct (reader_lines_cases lines) as [[rows ->]|[e Hin]].
  - left.
    destruct (import_rows_report rows 2 (mk_report 0 0 []) db)
      as (report & db' & new & H & Hc & He & Hn). simpl in *.
    exists rows, report, db'.
    unfold Reader.csv_import, csv_import, atomic.
    rewrite reader_import_rows, H.
    subst new. split_and!; [done|done|done|lia|done].
  - right.
    destruct (reader_import_rows_raises lines 2 (mk_report 0 0 []) db e Hin)
      as (e' & db' & He' & H).
    exists e'. split; [done|].
    unfold Reader.csv_import, atomic. by rewrite H.
Qed.

Lemma select_insert_same {A} (cond : A → bool) (table : gmap nat A) k a a' :
  select cond table = [(k, a)] → cond a' = true →
  select cond (<[k:=a']> table) = [(k, a')].
Proof.
  unfold select. intros E Hc.
  rewrite map_filter_insert_True by (simpl; by rewrite Hc).
  rewrite <- (list_to_map_to_list (filter _ table)), E. simpl.
  rewrite insert_insert_eq, insert_empty. apply map_to_list_singleton.
Qed.

Lemma get_or_create_found {A} (table : DB → gmap nat A) set_table cond
    (new_row : A) db k a :
  select cond (table db) = [(k, a)] →
  get_or_create table set_table cond new_row db = (inr (k, a, false), db).
Proof. intros E. unfold get_or_create. orm_simpl. by rewrite E. Qed.

(** After a lookup that returned, the same lookup finds the row that the
    first one returned. *)
Lemma get_or_create_then_found {A} (table : DB → gmap nat A) set_table cond
    (new_row : A) db k a c db1 :
  (∀ f d, table (set_table f d) = f (table d)) →
  cond new_row = true →
  get_or_create table set_table cond new_row db = (inr (k, a, c), db1) →
  select cond (table db1) = [(k, a)].
Proof.
  intros Hset Hc H. apply get_or_create_cases in H
    as [(Hn & ? & ->)|[(? & ? & Hs & ? & ->)|(_ & ? & _)]]; simplify_eq.
  - rewrite Hset. by apply select_insert_new.
  - done.
Qed.

Lemma subscript_inv key cell db v db1 :
  subscript key cell db = (inr v, db1) → cell = Some v ∧ db1 = db.
Proof. unfold subscript. orm_simpl. destruct cell; intros; by simplify_eq. Qed.

Lemma float_of_inv key cell db v db1 :
  float_of key cell db = (inr v, db1) → cell = Given v ∧ db1 = db.
Proof. unfold float_of. orm_simpl. destruct cell; intros; by simplify_eq. Qed.

Lemma int_of_inv key cell default db v db1 :
  int_of key cell default db = (inr v, db1) →
  db1 = db ∧ ∀ d, int_of key cell default d = (inr v, d).
Proof.
  unfold int_of. orm_simpl. destruct cell; intros; by simplify_eq.
Qed.

Lemma update_or_create_then_found code product_data db obj c db1 :
  update_or_create code product_data db = (inr (obj, c), db1) →
  update_or_create code product_data db1 = (inr (obj, false), db1).
Proof.
  unfold update_or_create, product_save. orm_simpl.
  destruct (select _ (products db)) as [|[k p] [|y l]] eqn:E;
    intros; simplify_eq/=.
  - rewrite (select_insert_new _ _ _ _ E) by (by apply bool_decide_eq_true_2).
    simpl. unfold set_products. simpl. by rewrite insert_insert_eq.
  - pose proof (select_singleton _ _ _ _ E) as [_ Hc].
    rewrite (select_insert_same _ _ _ _ _ E) by done.
    simpl. unfold set_products. simpl. by rewrite insert_insert_eq.
Qed.

(** X9.  Importing a row again changes nothing.  When a row has been
    imported, importing the same row right after it finds the category,
    the supplier and the product of the first import, reports an update
    and leaves the database exactly as it was. *)
Theorem import_row_again_is_noop (row : CsvRow.t) (db : DB) (created : bool)
    (db1 : DB) :
  import_row row db = (inr created, db1) →
  import_row row db1 = (inr false, db1).
Proof.
  unfold import_row. intros H.
  apply bind_inr in H as (category_name & d1 & [Hcat ->]%subscript_inv & H).
  apply bind_inr in H as ([[category ca] cc] & d2 & Hgc & H).
  apply bind_inr in H as (supplier_name & d3 & [Hsup ->]%subscript_inv & H).
  apply bind_inr in H as ([[supplier sa] sc] & d4 & Hgs & H).
  apply bind_inr in H as (name & d5 & [Hname ->]%subscript_inv & H).
  apply bind_inr in H as (unit_price & d6 & [Hprice ->]%float_of_inv & H).
  apply bind_inr in H as (minimum_stock & d7 & [-> Hmin]%int_of_inv & H).
  apply bind_inr in H as (maximum_stock & d8 & [-> Hmax]%int_of_inv & H).
  apply bind_inr in H as (current_stock & d9 & [-> Hcur]%int_of_inv & H).
  apply bind_inr in H as (code & d10 & [Hcode ->]%subscript_inv & H).
  apply bind_inr in H as ([obj c] & d11 & Hu & H).
  orm_simpl. simplify_eq.
  assert (categories db1 = categories d2) as Ec.
  { transitivity (categories d4).
    - by apply (update_or_create_preserves categories) in Hu.
    - by apply (preserves_get_or_create categories) in Hgs. }
  assert (suppliers db1 = suppliers d4) as Es
    by (by apply (update_or_create_preserves suppliers) in Hu).
  apply get_or_create_then_found in Hgc;
    [|done|by apply bool_decide_eq_true_2].
  apply get_or_create_then_found in Hgs;
    [|done|by apply bool_decide_eq_true_2].
  rewrite Hcat, Hsup, Hname, Hprice, Hcode. simpl.
  rewrite (get_or_create_found categories _ _ _ db1 category ca)
    by (by rewrite Ec).
  rewrite (get_or_create_found suppliers _ _ _ db1 supplier sa)
    by (by rewrite Es).
  rewrite Hmin, Hmax, Hcur.
  by rewrite (update_or_create_then_found _ _ _ _ _ _ Hu).
Qed.

Lemma import_row_again_is_noop_witness :
  ∃ created db1,
    import_row widget_row shop = (inr created, db1)
    ∧ import_row widget_row db1 = (inr false, db1).
Proof.
  destruct (import_row widget_row shop) as [[e|created] db1] eqn:E.
  - vm_compute in E. discriminate E.
  - exists created, db1. split; [reflexivity|].
    exact (import_row_again_is_noop widget_row shop created db1 E).
Defined.

(** ** The product form *)

Lemma product_form_valid db instance f :
  ProductForm.is_valid db instance f = true →
  ∃ category supplier unit_price minimum_stock maximum_stock,
    (∀ current_stock,
       ProductForm.columns db current_stock f
       = Some (Product.mk (ProductForm.code f) (ProductForm.name f)
                 (ProductForm.description f) category supplier unit_price
                 current_stock minimum_stock maximum_stock
                 (ProductForm.is_active f)))
    ∧ is_Some (categories db !! category)
    ∧ is_Some (suppliers db !! supplier)
    ∧ 0 ≤ unit_price
    ∧ 0 ≤ minimum_stock < maximum_stock
    ∧ ∀ k p, products db !! k = Some p →
             Product.code p = ProductForm.code f → Some k = instance.
Proof.
  unfold ProductForm.is_valid, ProductForm.errors, ProductForm.columns.
  intros Hv%bool_decide_eq_true_1.
  do 7 (apply app_eq_nil in Hv as [? Hv]).
  apply app_eq_nil in Hv as [Hc Hv].
  destruct (ProductForm.clean_code f) as [|code] eqn:Hcode; [done|].
  destruct (ProductForm.clean_name f) as [|name] eqn:Hname; [done|].
  destruct (ProductForm.clean_choice "category" _ _) as [|category] eqn:Hcat;
    [done|].
  destruct (ProductForm.clean_choice "supplier" _ _) as [|supplier] eqn:Hsup;
    [done|].
  destruct (ProductForm.clean_unit_price f) as [|unit_price] eqn:Hprice;
    [done|].
  destruct (ProductForm.clean_stock "minimum_stock" _ _) as [|mn] eqn:Hmin;
    [done|].
  destruct (ProductForm.clean_stock "maximum_stock" _ _) as [|mx] eqn:Hmax;
    [done|].
  simpl in *.
  assert (mn = 0 ∨ mx = 0 ∨ mn < mx) as Hcond.
  { unfold ProductForm.clean in Hc.
    destruct (negb (mn =? 0) && negb (mx =? 0) && bool_decide (mn >= mx))
      eqn:Hb; [done|].
    rewrite !andb_false_iff, !negb_false_iff, bool_decide_eq_false in Hb.
    lia. }
  clear Hc.
  assert (code = ProductForm.code f) as ->.
  { unfold ProductForm.clean_code in Hcode.
    repeat case_match; by simplify_eq. }
  assert (name = ProductForm.name f) as ->.
  { unfold ProductForm.clean_name in Hname.
    repeat case_match; by simplify_eq. }
  exists category, supplier, unit_price, mn, mx. split_and!; try done.
  - unfold ProductForm.clean_choice in Hcat.
    repeat case_match; simplify_eq; by eexists.
  - unfold ProductForm.clean_choice in Hsup.
    repeat case_match; simplify_eq; by eexists.
  - unfold ProductForm.clean_unit_price in Hprice.
    repeat (case_match; simplify_eq).
    match goal with H : bool_decide (_ < 0) = false |- _ =>
      apply bool_decide_eq_false_1 in H; lia end.
  - unfold ProductForm.clean_stock in Hmin.
    repeat (case_match; simplify_eq).
    match goal with H : bool_decide _ = false |- _ =>
      apply bool_decide_eq_false_1 in H; lia end.
  - unfold ProductForm.clean_stock in Hmin, Hmax.
    repeat (case_match; simplify_eq).
    repeat match goal with H : bool_decide _ = false |- _ =>
      apply bool_decide_eq_false_1 in H end.
    lia.
  - intros k p Hk Hc.
    unfold ProductForm.validate_unique in Hv.
    case_bool_decide as Hall; [|done].
    rewrite Forall_forall in Hall. apply (Hall (k, p)).
    apply elem_of_select. split; [done|]. by apply bool_decide_eq_true_2.
Qed.

(** X10.  A product made with the form is either refused, and nothing
    is written, or stored under a new key with a balance of 0, a price
    that is not negative, a minimum below its maximum, a category and a
    supplier that exist and a code that no product had; the products that
    existed and the other tables are unchanged.  The minimum is below the
    maximum even when it is 0, a value for which [clean] skips its
    comparison. *)
Theorem product_create_writes_valid_product (method : http_method)
    (form : ProductForm.t) (db : DB) (r : response) (db' : DB) :
  product_create method form db = (r, db') →
  (∃ errors, r = Render "inventory/product_form.html" errors None ∧ db' = db)
  ∨ (r = Redirect "product_list"
     ∧ ∃ p,
         products db !! fresh_pk (products db) = None
         ∧ db' = set_products (insert (fresh_pk (products db)) p) db
         ∧ Product.current_stock p = 0
         ∧ 0 ≤ Product.unit_price p
         ∧ 0 ≤ Product.minimum_stock p < Product.maximum_stock p
         ∧ is_Some (categories db !! Product.category p)
         ∧ is_Some (suppliers db !! Product.supplier p)
         ∧ ∀ k q, products db !! k = Some q →
                  Product.code q ≠ Product.code p).
Proof.
  unfold product_create. destruct method; [intros; simplify_eq; eauto|].
  destruct (ProductForm.is_valid db None form) eqn:Hv;
    [|intros; simplify_eq; eauto].
  destruct (product_form_valid _ _ _ Hv)
    as (category & supplier & unit_price & mn & mx & Hcol & Hcat & Hsup
        & Hprice & Hmm & Huniq).
  rewrite Hcol. intros; simplify_eq. right. split; [done|].
  eexists. split_and!; try done; simpl; auto using fresh_pk_None; try lia.
  intros k q Hk Hc. by specialize (Huniq k q Hk Hc).
Qed.

Lemma product_create_writes_valid_product_witness :
  ∃ p,
    (product_create POST gadget_form store).2
    = set_products (insert (fresh_pk (products store)) p) store
    ∧ Product.current_stock p = 0
    ∧ 0 ≤ Product.minimum_stock p < Product.maximum_stock p.
Proof.
  destruct (product_create POST gadget_form store) as [r db'] eqn:E.
  destruct (product_create_writes_valid_product POST gadget_form store r db' E)
    as [(errors & Hr & _)|(_ & p & _ & Hdb & Hcs & _ & Hmm & _)].
  - vm_compute in E. rewrite Hr in E. discriminate E.
  - exists p. simpl. split; [exact Hdb|]. split; [exact Hcs|exact Hmm].
Defined.

Lemma codes_unique_insert db k p :
  (∀ k' q, products db !! k' = Some q → Product.code q = Product.code p →
           k' = k) →
  codes_unique db → codes_unique (set_products (insert k p) db).
Proof.
  intros Hp Hdb k1 p1 k2 p2. simpl. rewrite !lookup_insert.
  repeat case_decide; intros; simplify_eq; eauto.
  symmetry. eauto.
Qed.

(** X11.  Editing a product with the form never changes a balance: the
    balance of every product is the same after [product_edit], and so are
    the ledger and the alerts.  A key without a product raises [Http404]
    and writes nothing.  When the edit is committed the product has the
    columns of the form, with a minimum below its maximum, and the codes
    of the products stay pairwise distinct if they were. *)
Theorem product_edit_keeps_balances (pk : nat) (method : http_method)
    (form : ProductForm.t) (db : DB) (r : exn + response) (db' : DB) :
  product_edit pk method form db = (r, db') →
  (∀ k, Product.current_stock <$> products db' !! k
        = Product.current_stock <$> products db !! k)
  ∧ movements db' = movements db
  ∧ alerts db' = alerts db
  ∧ (products db !! pk = None → r = inl Http404 ∧ db' = db)
  ∧ (r = inr (Redirect "product_list") →
     ∃ p, products db' = <[pk := p]> (products db)
          ∧ Product.code p = ProductForm.code form
          ∧ 0 ≤ Product.minimum_stock p < Product.maximum_stock p)
  ∧ (codes_unique db → codes_unique db').
Proof.
  unfold product_edit, product_save. orm_simpl.
  destruct (products db !! pk) as [product|] eqn:Hpk.
  2: { intros; simplify_eq. split_and!; auto; done. }
  destruct method.
  { intros; simplify_eq. split_and!; auto; done. }
  destruct (ProductForm.is_valid db (Some pk) form) eqn:Hv.
  2: { intros; simplify_eq. split_and!; auto; done. }
  destruct (product_form_valid _ _ _ Hv)
    as (category & supplier & unit_price & mn & mx & Hcol & Hcat & Hsup
        & Hprice & Hmm & Huniq).
  rewrite Hcol. intros; simplify_eq. simpl. split_and!; auto; try done.
  - intros k. rewrite lookup_insert. case_decide; simplify_eq; [|done].
    by rewrite Hpk.
  - intros _. eexists. split; [done|]. simpl. split; [done|lia].
  - apply codes_unique_insert. simpl. intros k' q Hk' Hc.
    specialize (Huniq k' q Hk' Hc). by simplify_eq.
Qed.

Lemma product_edit_keeps_balances_witness :
  Product.current_stock
    <$> products (product_edit 1 POST gadget_form store).2 !! 1%nat
  = Some 10
  ∧ Product.code <$> products (product_edit 1 POST gadget_form store).2 !! 1%nat
    = Some "G-1"%string.
Proof.
  destruct (product_edit 1 POST gadget_form store) as [r db'] eqn:E.
  destruct (product_edit_keeps_balances 1 POST gadget_form store r db' E)
    as (Hbal & _ & _ & _ & Hcommit & _).
  simpl. split.
  - rewrite Hbal. reflexivity.
  - assert (r = inr (Redirect "product_list")) as Hr
      by (vm_compute in E; congruence).
    destruct (Hcommit Hr) as (p & -> & Hcode & _).
    rewrite lookup_insert_eq. simpl. by rewrite Hcode.
Defined.

(** ** Product codes *)

Lemma codes_unique_products db db' :
  products db' = products db → codes_unique db → codes_unique db'.
Proof. unfold codes_unique. intros ->. done. Qed.

Lemma update_or_create_keeps_codes code product_data :
  keeps codes_unique (update_or_create code product_data).
Proof.
  intros db r db'. unfold update_or_create, product_save. orm_simpl.
  destruct (select _ (products db)) as [|[k p] [|y l]] eqn:E;
    intros ? Hdb; simplify_eq; [| |done].
  - apply codes_unique_insert; [|done]. simpl. intros k' q Hk' Hc.
    rewrite select_nil in E. specialize (E _ _ Hk').
    apply bool_decide_eq_false_1 in E. done.
  - apply codes_unique_insert; [|done]. simpl. intros k' q Hk' Hc.
    apply select_singleton in E as [Hk _]. eauto.
Qed.

Lemma import_row_keeps_codes row : keeps codes_unique (import_row row).
Proof.
  unfold import_row, subscript, float_of, int_of.
  repeat first
    [ apply update_or_create_keeps_codes
    | apply (keeps_preserves _ products);
        [apply codes_unique_products
        |apply preserves_get_or_create; by intros]
    | apply keeps_bind; [|intros]
    | apply keeps_mret
    | apply keeps_raise
    | progress case_match ].
Qed.

Lemma import_rows_keeps_codes rows row_num report :
  keeps codes_unique (import_rows rows row_num report).
Proof.
  revert row_num report.
  induction rows as [|row rows IH]; intros row_num report; simpl.
  - apply keeps_mret.
  - apply keeps_bind; [|by intros].
    apply keeps_try_except; [|intros; apply keeps_mret].
    apply keeps_bind; [|intros; apply keeps_mret].
    apply import_row_keeps_codes.
Qed.

(** X12.  The codes of the products stay pairwise distinct.  When they
    are, they still are after a product is made with the form, after a
    CSV import, whatever the file holds, and after a movement request:
    [update_or_create] makes a product only for a code that no product
    has. *)
Theorem codes_stay_unique (db : DB) :
  codes_unique db →
  (∀ method form, codes_unique (product_create method form db).2)
  ∧ (∀ method upload, codes_unique (csv_import method upload db).2)
  ∧ (∀ now user method form,
       codes_unique (stock_movement_create now user method form db).2).
Proof.
  intros Hdb. split_and!.
  - intros method form. unfold product_create.
    destruct method; [done|].
    destruct (ProductForm.is_valid db None form) eqn:Hv; [|done].
    destruct (product_form_valid _ _ _ Hv)
      as (category & supplier & unit_price & mn & mx & Hcol & _ & _ & _ & _
          & Huniq).
    rewrite Hcol. simpl. apply codes_unique_insert; [|done].
    simpl. intros k q Hk Hc. by specialize (Huniq k q Hk Hc).
  - intros method upload. unfold csv_import.
    destruct method; [done|]. destruct upload as [rows|]; [|done].
    destruct (atomic _ db) as [[e|report] db'] eqn:E; simpl.
    all: eapply (keeps_atomic codes_unique); [|exact E|done].
    all: apply import_rows_keeps_codes.
  - intros now user method form.
    destruct (stock_movement_create now user method form db) as [r db'] eqn:E.
    apply stock_movement_create_cases in E
      as [->|(m & m' & db1 & Hi & _ & Hs & He & _)]; [done|].
    apply instance_inv in Hi
      as (k & p & q & price & _ & Hk & _ & _ & _ & _ & ->).
    apply save_new_inv in Hs as (s & u & _ & _ & -> & ->); [|done].
    apply evaluate_frame in He as (_ & _ & Hp & _). simpl in *.
    apply (codes_unique_products
             (set_products (insert k (Product.set_current_stock s (k, p)).2)
                db)); [done|].
    apply codes_unique_insert; [|done]. simpl. intros k' q' Hk' Hc.
    eapply Hdb; eauto.
Qed.

Lemma codes_stay_unique_witness :
  codes_unique (csv_import POST (Some [widget_row; widget_row]) store).2
  ∧ codes_unique (product_create POST gadget_form store).2.
Proof.
  assert (codes_unique store) as Hstore.
  { intros k1 p1 k2 p2 H1 H2 Hc.
    change (products store)
      with ({[ 1%nat := widget; 2%nat := retired ]} : gmap nat Product.t)
      in H1, H2.
    apply lookup_insert_Some in H1 as [[<- <-]|[? H1]];
      [|apply lookup_singleton_Some in H1 as [<- <-]].
    all: apply lookup_insert_Some in H2 as [[<- <-]|[? H2]];
      [|apply lookup_singleton_Some in H2 as [<- <-]].
    all: done. }
  destruct (codes_stay_unique store Hstore) as (Hcreate & Himport & _).
  split; [apply Himport|apply Hcreate].
Defined.
(** ** The stock status *)

(** X13.  The admin column shows the status of the model, but for
    [Stock alto]: a product at or above its maximum, which the model
    calls [Stock alto], is shown as [Stock normal], in green.  The column
    is orange exactly for the status [Stock bajo]. *)
Theorem stock_status_display_agrees (obj : Product.obj) :
  (stock_status obj = "Sin stock"
   ∧ stock_status_display obj = ("red", "Sin stock"))
  ∨ (stock_status obj = "Stock bajo"
     ∧ stock_status_display obj = ("orange", "Stock bajo")
     ∧ Product.is_low_stock obj = true)
  ∨ (stock_status obj ∈ ["Stock alto"; "Stock normal"]
     ∧ stock_status_display obj = ("green", "Stock normal")
     ∧ Product.is_low_stock obj = false).
Proof.
  unfold stock_status, stock_status_display, Product.is_low_stock.
  rewrite !elem_of_cons, elem_of_nil.
  repeat case_bool_decide; try lia; auto 10.
Qed.

(** X14.  The filters of the product list against the status of the
    model, for a product whose minimum is not negative: [out] keeps the
    products that are [Sin stock], [low] keeps those and the ones that
    are [Stock bajo], and [normal] keeps the ones that are [Stock normal]
    or [Stock alto]. *)
Theorem stock_status_filter_by_status (k : nat) (p : Product.t) :
  0 ≤ Product.minimum_stock p →
  (stock_status_filter "out" p = true ↔ stock_status (k, p) = "Sin stock")
  ∧ (stock_status_filter "low" p = true
     ↔ stock_status (k, p) ∈ ["Sin stock"; "Stock bajo"])
  ∧ (stock_status_filter "normal" p = true
     ↔ stock_status (k, p) ∈ ["Stock alto"; "Stock normal"]).
Proof.
  intros Hmin. unfold stock_status_filter, stock_status. simpl.
  rewrite andb_true_iff, !bool_decide_eq_true, !elem_of_cons, elem_of_nil.
  repeat case_bool_decide; split_and!; split; intros; try lia; auto.
  all: intuition discriminate.
Qed.

Lemma stock_status_filter_by_status_witness :
  stock_status_filter "low" widget = false
  ∧ stock_status_filter "normal" widget = true.
Proof.
  destruct (stock_status_filter_by_status 1 widget) as (_ & Hlow & Hnormal);
    [vm_compute; discriminate|].
  split.
  - apply not_true_is_false. rewrite Hlow, !elem_of_cons, elem_of_nil.
    vm_compute. intros [H|[H|[]]]; discriminate H.
  - apply Hnormal. rewrite !elem_of_cons. right; left. reflexivity.
Defined.
(** ** The product list *)

Global Instance name_le_total : Total name_le.
Proof.
  intros p q. unfold name_le.
  destruct (String.leb_total (Product.name p.2) (Product.name q.2)) as [H|H];
    rewrite H; auto.
Qed.

(** The products that [product_list] hands to the paginator. *)
Lemma elem_of_product_list icontains db form k p :
  (k, p) ∈ product_list icontains db form
  ↔ products db !! k = Some p
    ∧ related db p = true
    ∧ Product.is_active p = true
    ∧ match ProductFilterForm.cleaned_data db form with
      | Some (category, supplier, status, search) =>
          (∀ c, category = Some c → Product.category p = c)
          ∧ (∀ s, supplier = Some s → Product.supplier p = s)
          ∧ (status ≠ "" → stock_status_filter status p = true)
          ∧ (search ≠ "" →
             icontains (Product.code p) search = true
             ∨ icontains (Product.name p) search = true)
      | None => True
      end.
Proof.
  unfold product_list. rewrite merge_sort_Permutation, elem_of_select.
  rewrite !andb_true_iff.
  destruct (ProductFilterForm.cleaned_data db form)
    as [[[[category supplier] status] search]|]; [|tauto].
  rewrite !andb_true_iff.
  assert ((match category with
           | Some c => bool_decide (Product.category p = c)
           | None => true
           end = true) ↔ ∀ c, category = Some c → Product.category p = c)
    as ->.
  { destruct category; [rewrite bool_decide_eq_true|]; naive_solver. }
  assert ((match supplier with
           | Some s => bool_decide (Product.supplier p = s)
           | None => true
           end = true) ↔ ∀ s, supplier = Some s → Product.supplier p = s)
    as ->.
  { destruct supplier; [rewrite bool_decide_eq_true|]; naive_solver. }
  repeat case_decide; rewrite ?orb_true_iff; tauto.
Qed.

Lemma cleaned_data_set_stock_status db form status :
  is_Some (ProductFilterForm.cleaned_data db form) →
  status ∈ [""; "low"; "out"; "normal"]%string →
  ∃ category supplier,
    ProductFilterForm.cleaned_data db
      (ProductFilterForm.set_stock_status status form)
    = Some (category, supplier, status, ProductFilterForm.search form)
    ∧ ∀ status', status' ∈ [""; "low"; "out"; "normal"]%string →
        ProductFilterForm.cleaned_data db
          (ProductFilterForm.set_stock_status status' form)
        = Some (category, supplier, status', ProductFilterForm.search form).
Proof.
  unfold ProductFilterForm.cleaned_data, ProductFilterForm.clean_stock_status.
  simpl. intros [x Hx] Hs.
  destruct (ProductFilterForm.clean_choice "category" _ _ _)
    as [|category]; [done|].
  destruct (ProductFilterForm.clean_choice "supplier" _ _ _)
    as [|supplier]; [done|].
  exists category, supplier. rewrite bool_decide_eq_true_2 by done.
  split; [done|]. intros status' Hs'. by rewrite bool_decide_eq_true_2.
Qed.

(** X15.  Every product on the product list is an active product of the
    table whose category and supplier exist, no product is listed twice,
    and the list is in the order of the names.  A filter form that does
    not validate filters nothing: the list then holds every active
    product, whatever the other fields of the form ask for. *)
Theorem product_list_lists_active_products
    (icontains : string → string → bool) (db : DB)
    (form : ProductFilterForm.t) :
  (∀ k p, (k, p) ∈ product_list icontains db form →
          products db !! k = Some p
          ∧ Product.is_active p = true
          ∧ is_Some (categories db !! Product.category p)
          ∧ is_Some (suppliers db !! Product.supplier p))
  ∧ NoDup (product_list icontains db form).*1
  ∧ Sorted name_le (product_list icontains db form)
  ∧ (ProductFilterForm.cleaned_data db form = None →
     ∀ k p, products db !! k = Some p → Product.is_active p = true →
            related db p = true →
            (k, p) ∈ product_list icontains db form).
Proof.
  split_and!.
  - intros k p (Hk & Hr & Ha & _)%elem_of_product_list.
    unfold related in Hr.
    apply andb_true_iff in Hr as [Hc%bool_decide_eq_true_1
                                    Hs%bool_decide_eq_true_1].
    done.
  - unfold product_list. rewrite merge_sort_Permutation.
    apply NoDup_fst_map_to_list.
  - apply (Sorted_merge_sort _).
  - intros Hnone k p Hk Ha Hr. apply elem_of_product_list.
    by rewrite Hnone.
Qed.

(** X16.  When the filter form validates and no product has a negative
    minimum, the filters [low] and [normal] split the list: a product is
    listed without a status filter exactly when it is listed under [low]
    or under [normal], never under both, and every product listed under
    [out] is listed under [low] too. *)
Theorem stock_status_filters_split (icontains : string → string → bool)
    (db : DB) (form : ProductFilterForm.t) (x : Product.obj) :
  minimum_nonneg db →
  is_Some (ProductFilterForm.cleaned_data db form) →
  let listed status :=
    x ∈ product_list icontains db
          (ProductFilterForm.set_stock_status status form) in
  (listed "" ↔ listed "low" ∨ listed "normal")
  ∧ ¬ (listed "low" ∧ listed "normal")
  ∧ (listed "out" → listed "low").
Proof.
  intros Hmin Hform. simpl. destruct x as [k p].
  destruct (cleaned_data_set_stock_status db form "" Hform)
    as (category & supplier & _ & Hcd); [by left|].
  rewrite !elem_of_product_list.
  rewrite !Hcd by (rewrite !elem_of_cons; auto).
  unfold stock_status_filter; simpl.
  rewrite andb_true_iff, !bool_decide_eq_true.
  split_and!.
  - split.
    + intros (Hk & Hr & Ha & Hc & Hs & _ & Hq).
      specialize (Hmin _ _ Hk). simpl in Hmin.
      destruct (decide (Product.current_stock p ≤ Product.minimum_stock p));
        [left|right]; split_and!; auto; intros _; first [done|lia].
    + intros [(Hk & Hr & Ha & Hc & Hs & _ & Hq)
             |(Hk & Hr & Ha & Hc & Hs & _ & Hq)]; split_and!; auto; done.
  - intros [(_ & _ & _ & _ & _ & Hl & _) (_ & _ & _ & _ & _ & Hn & _)].
    specialize (Hl ltac:(done)). specialize (Hn ltac:(done)). lia.
  - intros (Hk & Hr & Ha & Hc & Hs & Ho & Hq).
    specialize (Hmin _ _ Hk). simpl in Hmin.
    split_and!; auto. intros _. specialize (Ho ltac:(done)). lia.
Qed.

Lemma stock_status_filters_split_witness :
  let listed status :=
    (1%nat, widget)
    ∈ product_list (λ _ _, true) store
        (ProductFilterForm.mk Absent Absent status "") in
  listed "" ↔ listed "low" ∨ listed "normal".
Proof.
  refine (proj1 (stock_status_filters_split (λ _ _, true) store
                   (ProductFilterForm.mk Absent Absent "" "")
                   (1%nat, widget) _ _)).
  - apply (bool_decide_unpack _). vm_compute. exact I.
  - vm_compute. eauto.
Defined.
(** ** The alerts page, and the life of an alert *)

Global Instance newer_first_total : Total newer_first.
Proof. intros x y. unfold newer_first. lia. Qed.









(** ** The sample data *)

(** X19.  The loop that creates the sample movements of a product never
    fails and never takes a balance below zero.  For draws of [IN] or
    [OUT] with a quantity of at least 1, from a balance that is not
    negative, it returns the product with a balance that is not negative.
    It writes that product and at most one new ledger row for each draw;
    it keeps the ledger rows that existed, and it creates no alert,
    however low the balance ends. *)
Theorem sample_movements_never_fails (now : Z) (user : nat)
    (product : Product.obj) (draws : list (string * Z * string)) (db : DB) :
  Forall (λ d, d.1.1 ∈ ["IN"; "OUT"]%string ∧ 1 ≤ d.1.2) draws →
  0 ≤ Product.current_stock product.2 →
  ∃ product' db',
    sample_movements now user product draws db = (inr product', db')
    ∧ product'.1 = product.1
    ∧ 0 ≤ Product.current_stock product'.2
    ∧ alerts db' = alerts db
    ∧ (∀ k, k ≠ product.1 → products db' !! k = products db !! k)
    ∧ (∀ k row, movements db !! k = Some row → movements db' !! k = Some row)
    ∧ (size (movements db') ≤ size (movements db) + length draws)%nat.
Proof.
  revert product db.
  induction draws as [|[[mt q] ref] draws IH]; intros product db Hd Hs.
  { exists product, db. simpl. split_and!; auto. lia. }
  apply Forall_cons in Hd as [[Hmt Hq] Hd]. simpl in Hmt, Hq.
  cbn [sample_movements].
  set (m := StockMovement.mk None product mt q _ _ _ _ _ _ _ _).
  destruct (bool_decide (mt = "OUT")
            && bool_decide (Product.current_stock product.2 < q)) eqn:Hskip.
  { destruct (IH product db Hd Hs)
      as (product' & db' & E & H1 & H2 & H3 & H4 & H5 & H6).
    exists product', db'. split_and!; auto. simpl. lia. }
  assert (∃ s, leaves m s ∧ 0 ≤ s) as (s & Hl & Hs').
  { rewrite !elem_of_cons, elem_of_nil in Hmt.
    destruct Hmt as [->|[->|[]]].
    - eexists. split; [by apply leaves_in|]. simpl. lia.
    - simpl in Hskip. apply bool_decide_eq_false in Hskip.
      eexists. split; [apply leaves_out; [done|simpl; lia|done]|].
      simpl. lia. }
  pose proof (save_new_commits now m db s user eq_refl Hl eq_refl) as Hsave.
  orm_simpl. rewrite Hsave. cbn [StockMovement.product saved].
  change (StockMovement.product m) with product.
  match goal with
  | |- context [sample_movements _ _ ?p _ ?d] =>
      destruct (IH p d Hd Hs')
        as (product' & db' & E & H1 & H2 & H3 & H4 & H5 & H6)
  end.
  exists product', db'. split_and!; auto.
  - intros k Hk. rewrite H4 by done. simpl. by rewrite lookup_insert_ne.
  - intros k row Hk. apply H5. simpl. rewrite lookup_insert_ne; [done|].
    intros <-. by rewrite fresh_pk_None in Hk.
  - simpl in H6. rewrite map_size_insert_None in H6 by apply fresh_pk_None.
    simpl. lia.
Qed.

Lemma sample_movements_never_fails_witness :
  ∃ product' db',
    sample_movements 100 7 (1%nat, widget)
      [("OUT", 20, "REF-1000"); ("IN", 3, "REF-1001");
       ("OUT", 13, "REF-1002")]%string shop
    = (inr product', db')
    ∧ 0 ≤ Product.current_stock product'.2
    ∧ alerts db' = alerts shop.
Proof.
  destruct (sample_movements_never_fails 100 7 (1%nat, widget)
              [("OUT", 20, "REF-1000"); ("IN", 3, "REF-1001");
               ("OUT", 13, "REF-1002")]%string shop)
    as (product' & db' & E & _ & Hs & Ha & _).
  - repeat (apply Forall_cons;
            split; [simpl; split; [rewrite !elem_of_cons; auto|lia]|]).
    apply Forall_nil_2.
  - simpl. lia.
  - exists product', db'. split; [exact E|]. split; [exact Hs|exact Ha].
Defined.
(** ** The import form and the export *)



(** X21.  A file written by the export is refused by the import form,
    whatever the products are: its header has none of the five columns
    that the form requires. *)
Theorem export_is_refused_by_import (db : DB) (name : string) :
  ends_with name ".csv" = true →
  ∃ header rows,
    export_products_csv db = header :: rows
    ∧ clean_csv_file name (Some (omap cell_text header))
      = inl (ReadError (MissingFields required_fields)).
Proof.
  intros Hname. unfold export_products_csv. eexists _, _. split; [done|].
  unfold clean_csv_file. rewrite Hname. reflexivity.
Qed.

Lemma export_is_refused_by_import_witness :
  ∃ header rows,
    export_products_csv store = header :: rows
    ∧ clean_csv_file "productos.csv" (Some (omap cell_text header))
      = inl (ReadError (MissingFields required_fields)).
Proof.
  apply export_is_refused_by_import. reflexivity.
Defined.
(** ** The reports and the dashboard *)

(** X22.  Every row of the low-stock report is an active product of the
    table at or below its minimum, with the names of its category and of
    its supplier; the difference it shows is the balance minus the
    minimum and is never positive. *)
Theorem low_stock_report_rows (db : DB) (row : list cell) :
  row ∈ generate_low_stock_report db →
  ∃ k p category supplier,
    products db !! k = Some p
    ∧ Product.is_active p = true
    ∧ categories db !! Product.category p = Some category
    ∧ suppliers db !! Product.supplier p = Some supplier
    ∧ row = [Text (Product.code p); Text (Product.name p);
             Text (Category.name category); Text (Supplier.name supplier);
             Int (Product.current_stock p); Int (Product.minimum_stock p);
             Int (Product.current_stock p - Product.minimum_stock p)]
    ∧ Product.current_stock p - Product.minimum_stock p ≤ 0.
Proof.
  unfold generate_low_stock_report.
  intros ([k p] & Hin & Hrow)%list_elem_of_omap.
  apply elem_of_low_stock_products in Hin as (Hk & Ha & Hlow).
  simpl in Hrow.
  destruct (categories db !! Product.category p) as [category|] eqn:Hc;
    [|done].
  destruct (suppliers db !! Product.supplier p) as [supplier|] eqn:Hs;
    [|done].
  simpl in Hrow. simplify_eq.
  exists k, p, category, supplier. split_and!; auto. lia.
Qed.

Lemma low_stock_report_rows_witness :
  ∃ k p,
    products (set_products (insert 1%nat low_widget.2) store) !! k = Some p
    ∧ Product.current_stock p - Product.minimum_stock p ≤ 0.
Proof.
  destruct (low_stock_report_rows
              (set_products (insert 1%nat low_widget.2) store)
              [Text "W-1"; Text "Widget"; Text "Tools"; Text "Acme";
               Int 4; Int 5; Int (-1)])
    as (k & p & category & supplier & Hk & _ & _ & _ & _ & Hd).
  - vm_compute. left.
  - exists k, p. split; [exact Hk|exact Hd].
Defined.

Lemma length_select_le {A} (c1 c2 : A → bool) (table : gmap nat A) :
  (∀ k a, table !! k = Some a → c1 a = true → c2 a = true) →
  (length (select c1 table) ≤ length (select c2 table))%nat.
Proof.
  intros H. unfold select. rewrite !length_map_to_list.
  apply map_subseteq_size, map_filter_subseteq_ext. simpl.
  intros k a Hk. rewrite !Is_true_true. eauto.
Qed.

Lemma handle_loop_at_most now ps n0 db n db' :
  handle_loop now ps n0 db = (inr n, db') → (n ≤ n0 + length ps)%nat.
Proof.
  revert n0 db. induction ps as [|product ps IH]; intros n0 db; simpl.
  - orm_simpl. intros; simplify_eq. lia.
  - orm_simpl.
    destruct (alert_get_or_create now product db) as [[e|[[k a] c]] db1];
      [done|].
    intros H%IH. destruct c; lia.
Qed.

(** X23.  The counts of the dashboard are consistent.  When no product
    has a negative minimum, the products out of stock are among those
    with a low balance, which are among the active ones, so the counts are
    in that order.  The count of low balances is the number of entries
    that [api_stock_alerts] returns, and a sweep never reports more new
    alerts than that count.  The dashboard lists at most five products,
    each an active product at or below its minimum. *)
Theorem dashboard_counts_consistent (db : DB) :
  minimum_nonneg db →
  (Dashboard.out_of_stock (dashboard db)
   ≤ Dashboard.low_stock_products (dashboard db)
   ≤ Dashboard.total_products (dashboard db))%nat
  ∧ Dashboard.low_stock_products (dashboard db) = length (api_stock_alerts db)
  ∧ (∀ now n db', handle now db = (inr n, db') →
                  (n ≤ Dashboard.low_stock_products (dashboard db))%nat)
  ∧ (length (Dashboard.low_stock_list (dashboard db)) ≤ 5)%nat
  ∧ ∀ k p, (k, p) ∈ Dashboard.low_stock_list (dashboard db) →
           products db !! k = Some p
           ∧ Product.is_active p = true
           ∧ Product.current_stock p ≤ Product.minimum_stock p.
Proof.
  intros Hmin. unfold dashboard. simpl.
  assert (length (low_stock_products db)
          = length (select (λ p, Product.is_active p
                                 && bool_decide (Product.current_stock p
                                                 ≤ Product.minimum_stock p))
                      (products db))) as Hlen.
  { unfold low_stock_products. by rewrite merge_sort_Permutation. }
  split_and!.
  - apply length_select_le. intros k p Hk.
    rewrite !andb_true_iff, !bool_decide_eq_true.
    specialize (Hmin _ _ Hk). simpl in Hmin. intros [? ->]. done.
  - apply length_select_le. intros k p Hk.
    rewrite !andb_true_iff. tauto.
  - unfold api_stock_alerts. by rewrite length_fmap, Hlen.
  - intros now n db' H. rewrite handle_unfold in H.
    apply handle_loop_at_most in H. rewrite <- Hlen. lia.
  - rewrite length_take. lia.
  - intros k p Hin%subseteq_take%list_elem_of_filter.
    destruct Hin as [_ Hin]. by apply elem_of_low_stock_products.
Qed.

Lemma dashboard_counts_consistent_witness :
  (Dashboard.out_of_stock (dashboard store)
   ≤ Dashboard.low_stock_products (dashboard store)
   ≤ Dashboard.total_products (dashboard store))%nat.
Proof.
  refine (proj1 (dashboard_counts_consistent store _)).
  apply (bool_decide_unpack _). vm_compute. exact I.
Defined.
